(** * SmartBid compliance: usage metering, entitlement gate and billing hooks

    A shallow embedding of the client component ([App.jsx]) and of the
    server ([server.cjs]), and the properties of the usage-metering core:
    the trial gate, the transactional counter update, the document paths,
    the compliance percentage, the billing webhook and the portal route.

    Modelling conventions.
    - A JavaScript object read by key (a Firestore document, the
      [usageLimits] state) is a [gmap string value]; a missing key is
      [undefined], i.e. the lookup gives [None].
    - Numbers held by documents are integers ([Z]); [+] on them rounds
      its result to 53 significant bits, as the binary64 arithmetic of the
      runtime does, so that addition is exact up to 2^53 and not beyond.
      The compliance percentage is computed on binary64 numbers
      themselves (module [Double]); module [App] also has it on rationals
      ([Q]), the reading in which the only rounding is the one the code
      asks for with [toFixed(1)].
    - The document store is a map from the slash-separated path of a
      document to its fields.
    - What the vendor libraries decide (signature verification, the billing
      portal, the validation of a document path, the numeric reading of a
      string) is a parameter: an argument of the route or a variable of
      the section. *)

From Stdlib Require Import Floats.
From Stdlib Require Import ZArith QArith Qpower Qround Qabs Lqa Ascii String List Bool Lia.
From stdpp Require Import base option gmap strings pretty list sorting.

Local Open Scope string_scope.
Local Open Scope Z_scope.

(** ** JavaScript values and the operators the code applies to them *)

Module JS.

(** The primitive values a usage document holds. [undefined] is the
    absence of a value: [option value]. *)
Inductive value : Type :=
| JNull
| JBool (b : bool)
| JNum (n : Z)
| JStr (s : string).

#[global] Instance value_eq_dec : EqDecision value.
Proof. solve_decision. Defined.

(** ToBoolean. *)
Definition truthy (v : option value) : bool :=
  match v with
  | None => false
  | Some JNull => false
  | Some (JBool b) => b
  | Some (JNum n) => negb (n =? 0)
  | Some (JStr s) => negb (String.eqb s "")
  end.

(** [v || d] with a defined right operand. *)
Definition or_else (v : option value) (d : value) : value :=
  match v with
  | Some x => if truthy v then x else d
  | None => d
  end.

(** The integer a number of the runtime holds in place of [z]: a number
    is a binary64 value, with 53 significant bits. Up to 2^53 in absolute
    value every integer is a number; beyond, [z] is rounded to the nearest
    integer that has 53 significant bits, to the one with an even last bit
    when two are equally near. (Integers at 2^1024 and beyond, which the
    runtime holds as [Infinity], are out of the reach of a counter.) *)
Definition toDouble (z : Z) : Z :=
  let a := Z.abs z in
  let e := Z.log2 a - 52 in
  if e <=? 0 then z
  else
    let q := a / 2 ^ e in
    let r := a mod 2 ^ e in
    let half := 2 ^ (e - 1) in
    let q := if (half <? r) || ((r =? half) && Z.odd q) then q + 1 else q in
    Z.sgn z * (q * 2 ^ e).

(** [a + b] on numbers that hold integers: the exact sum, rounded. *)
Definition addNumbers (a b : Z) : Z := toDouble (toDouble a + toDouble b).

(** [v + 1]: string concatenation when [v] is a string, numeric addition
    after ToNumber otherwise. *)
Definition plus_one (v : value) : value :=
  match v with
  | JNull => JNum 1
  | JBool b => JNum ((if b then 1 else 0) + 1)
  | JNum n => JNum (addNumbers n 1)
  | JStr s => JStr (s +:+ "1")
  end.

(** The keys a plain object inherits from [Object.prototype]. *)
Definition prototypeKeys : list string :=
  [ "constructor"; "hasOwnProperty"; "isPrototypeOf"; "propertyIsEnumerable";
    "toLocaleString"; "toString"; "valueOf"; "__defineGetter__";
    "__defineSetter__"; "__lookupGetter__"; "__lookupSetter__"; "__proto__" ].

(** The text [+] makes of the member a plain object inherits under [key]:
    [[object Object]] for the prototype itself, under [__proto__]; for a
    built-in function its source text, given here as V8 prints it (the
    engines differ in the white space around [[native code]]). *)
Definition inheritedText (key : string) : option string :=
  if bool_decide (key ∈ prototypeKeys) then
    Some (if String.eqb key "__proto__" then "[object Object]"
          else if String.eqb key "constructor"
               then "function Object() { [native code] }"
               else "function " +:+ key +:+ "() { [native code] }")
  else None.

Section Comparison.
(** ToNumber on a string is the runtime's numeric-literal reader;
    [None] stands for NaN. *)
Variable StringToNumber : string → option Z.

Definition to_number (v : option value) : option Z :=
  match v with
  | None => None
  | Some JNull => Some 0
  | Some (JBool b) => Some (if b then 1 else 0)
  | Some (JNum n) => Some n
  | Some (JStr s) => StringToNumber s
  end.

(** [v >= k] for a number [k]: false as soon as an operand is NaN. *)
Definition ge_num (v : option value) (k : Z) : bool :=
  match to_number v with
  | Some n => k <=? n
  | None => false
  end.
End Comparison.

End JS.

Export JS.

(** ** The document store *)

Module Firestore.

Abbreviation Doc := (gmap string value).
Abbreviation Store := (gmap string (gmap string value)).

(** [ref.get()]: [None] is a snapshot for which [exists()] is false. *)
Definition get (s : Store) (ref : string) : option Doc := s !! ref.

(** [ref.set(data)]: the document becomes exactly [data]. *)
Definition set (s : Store) (ref : string) (data : Doc) : Store :=
  <[ref := data]> s.

(** [ref.set(data, {merge: true})]: the fields of [data] are written,
    the other fields of an existing document stay; a missing document is
    created. *)
Definition set_merge (s : Store) (ref : string) (data : Doc) : Store :=
  <[ref := data ∪ default ∅ (s !! ref)]> s.

(** *** Transactions

    The body of [runTransaction] reads from the snapshot the transaction
    started on and buffers its writes; the log keeps every operation in
    program order. *)
Inductive TxOp : Type :=
| TxGet (ref : string)
| TxSet (ref : string) (data : Doc).

Definition Tx (A : Type) : Type := Store → list TxOp → A * list TxOp.

#[global] Instance tx_ret : MRet Tx := λ A a _ log, (a, log).

#[global] Instance tx_bind : MBind Tx :=
  λ A B k m s log, let '(a, log') := m s log in k a s log'.

Definition tx_get (ref : string) : Tx (option Doc) :=
  λ s log, (get s ref, (log ++ [TxGet ref])%list).

Definition tx_set (ref : string) (data : Doc) : Tx unit :=
  λ _ log, (tt, (log ++ [TxSet ref data])%list).

Definition apply_op (s : Store) (op : TxOp) : Store :=
  match op with
  | TxGet _ => s
  | TxSet ref data => set s ref data
  end.

(** How the store settles a transaction: it commits all the buffered
    writes at once, or it gives up and the promise rejects with an error
    message. *)
Inductive TxOutcome : Type :=
| Commit
| Abort (message : string).

(** [runTransaction(db, body)]: the resulting store, the operations of
    the body, and the error message of a rejected transaction. *)
Definition runTransaction (body : Tx unit) (outcome : TxOutcome) (s : Store)
  : Store * list TxOp * option string :=
  let '(_, log) := body s [] in
  match outcome with
  | Commit => (foldl apply_op s log, log, None)
  | Abort message => (s, log, Some message)
  end.

End Firestore.

Export Firestore.

(** ** The client component (App.jsx) *)

Module App.

Definition FREE_TRIAL_LIMIT : Z := 3.

(** *** Document paths *)

(** [typeof __app_id !== 'undefined' ? __app_id : 'default-app-id'];
    the ambient global [__app_id] is [None] when it is not defined. *)
Definition usageAppId (__app_id : option string) : string :=
  match __app_id with
  | Some id => id
  | None => "default-app-id"
  end.

(** [doc(db, `artifacts/${appId}/users/${userId}/usage_limits`,
    'main_tracker')] *)
Definition getUsageDocRef (__app_id : option string) (userId : string) : string :=
  let appId := usageAppId __app_id in
  "artifacts/" +:+ appId +:+ "/users/" +:+ userId +:+ "/usage_limits"
    +:+ "/" +:+ "main_tracker".

(** [typeof __app_id !== 'undefined' ? '__app_id' : 'default-app-id']:
    the first branch is a string literal. *)
Definition reportsAppId (__app_id : option string) : string :=
  match __app_id with
  | Some _ => "__app_id"
  | None => "default-app-id"
  end.

(** [collection(db, `artifacts/${appId}/compliance_reports`)] *)
Definition getReportsCollectionRef (__app_id : option string) : string :=
  let appId := reportsAppId __app_id in
  "artifacts/" +:+ appId +:+ "/compliance_reports".

(** The segments of a slash-separated path. *)
Fixpoint segments_from (acc : string) (path : string) : list string :=
  match path with
  | EmptyString => [acc]
  | String c rest =>
      if Ascii.eqb c "/"%char then acc :: segments_from "" rest
      else segments_from (acc +:+ String c "") rest
  end.

Definition segments (path : string) : list string := segments_from "" path.

(** The namespace of a path [artifacts/{appId}/...]: its second segment. *)
Definition appIdSegment (path : string) : option string := segments path !! 1%nat.

(** *** The compliance percentage *)

(** Of a finding the percentage reads the score only; [None] is a
    finding without the field. *)
Record Finding : Type := { complianceScore : option Q }.

Record Report : Type := { findings : option (list Finding) }.

(** [x.toFixed(1)] read back by [parseFloat], on exact rationals: the
    multiple of one tenth nearest to [x], the larger magnitude on a tie.
    This is the function in exact arithmetic; what the runtime computes on
    binary64 numbers is in module [Double]. *)
Definition toFixed1 (x : Q) : Q :=
  if Qle_bool 0 x then Qmake (Qfloor (x * 10 + (1 # 2))%Q) 10
  else Qopp (Qmake (Qfloor ((- x) * 10 + (1 # 2))%Q) 10).

(** [maxScore > 0 ? parseFloat(((totalScore / maxScore) * 100).toFixed(1)) : 0]
    with [findings = report.findings || []] and [totalScore] the
    left-to-right sum of [item.complianceScore || 0]. *)
Definition getCompliancePercentage (report : Report) : Q :=
  let findings := default [] (findings report) in
  let totalScore :=
    foldl (λ sum item, (sum + default 0 (complianceScore item))%Q) 0%Q findings in
  let totalRequirements := Z.of_nat (length findings) in
  let maxScore := totalRequirements * 1 in
  if 0 <? maxScore
  then toFixed1 ((totalScore / inject_Z maxScore) * 100)%Q
  else 0%Q.

(** *** Component state *)

(** The part of the state of [App] that metering reads and writes. [db]
    is [false] while the Firestore handle is still [null]; [userId] is
    the Firebase uid, [None] while it is [null]. *)
Record State : Type := {
  db : bool;
  userId : option string;
  usageLimits : Doc;
  isPaywallOpen : bool;
  errorMessage : option string
}.

Definition setUsageLimits (v : Doc) (st : State) : State :=
  {| db := db st; userId := userId st; usageLimits := v;
     isPaywallOpen := isPaywallOpen st; errorMessage := errorMessage st |}.

Definition setIsPaywallOpen (v : bool) (st : State) : State :=
  {| db := db st; userId := userId st; usageLimits := usageLimits st;
     isPaywallOpen := v; errorMessage := errorMessage st |}.

Definition setErrorMessage (v : option string) (st : State) : State :=
  {| db := db st; userId := userId st; usageLimits := usageLimits st;
     isPaywallOpen := isPaywallOpen st; errorMessage := v |}.

(** [{ initiatorChecks: 0, bidderChecks: 0, isSubscribed: false }] *)
Definition initialData : Doc :=
  <["initiatorChecks" := JNum 0]>
    (<["bidderChecks" := JNum 0]> (<["isSubscribed" := JBool false]> ∅)).

(** [!userId] for a string or [null]. *)
Definition userIdSet (u : option string) : option string :=
  match u with
  | Some id => if String.eqb id "" then None else Some id
  | None => None
  end.

(** *** The trial gate *)

Section Gate.
Variable StringToNumber : string → option Z.

(** [usage.bidderChecks >= limit && !usage.isSubscribed] *)
Definition isBlocked (usage : Doc) (limit : Z) : bool :=
  ge_num StringToNumber (usage !! "bidderChecks") limit
  && negb (truthy (usage !! "isSubscribed")).

(** [const isTrialOver = usageLimits.bidderChecks >= FREE_TRIAL_LIMIT
    && !usageLimits.isSubscribed] *)
Definition isTrialOver (usageLimits : Doc) : bool :=
  isBlocked usageLimits FREE_TRIAL_LIMIT.
End Gate.

(** *** The usage listener (effect 2) *)

(** The callback of [onSnapshot(docRef, ...)] for a snapshot of the
    usage document: an existing document is copied into [usageLimits]
    with [isSubscribed] defaulted to [false]; a missing one is
    initialised in the store and in the state. *)
Definition onUsageSnapshot (__app_id : option string) (uid : string)
    (st : State) (s : Store) : State * Store :=
  let docRef := getUsageDocRef __app_id uid in
  match get s docRef with
  | Some data =>
      (setUsageLimits
         (<["isSubscribed" := or_else (data !! "isSubscribed") (JBool false)]> data) st,
       s)
  | None => (setUsageLimits initialData st, set s docRef initialData)
  end.

(** *** The counter update *)

(** [(currentData[roleKey] || 0) + 1]. A key the record does not hold is
    looked up on [Object.prototype]: what is found there is an object or a
    function, which [||] keeps and [+] turns into text. *)
Definition countPlusOne (currentData : Doc) (roleKey : string) : value :=
  match currentData !! roleKey, inheritedText roleKey with
  | Some v, _ => plus_one (or_else (Some v) (JNum 0))
  | None, Some text => JStr (text +:+ "1")
  | None, None => plus_one (JNum 0)
  end.

(** [currentData[roleKey] = newCount], [newCount] being a number or a
    string: under [__proto__] the assignment runs the setter of
    [Object.prototype], which ignores a value that is not an object. *)
Definition assign (currentData : Doc) (roleKey : string) (newCount : value) : Doc :=
  if String.eqb roleKey "__proto__" then currentData
  else <[roleKey := newCount]> currentData.

(** The body handed to [runTransaction]. *)
Definition incrementUsageTx (docRef roleKey : string) : Tx unit :=
  docSnap ← tx_get docRef;
  let currentData :=
    match docSnap with
    | Some data => data
    | None => initialData
    end in
  let newCount := countPlusOne currentData roleKey in
  let currentData := assign currentData roleKey newCount in
  tx_set docRef currentData.

(** What one call of [incrementUsage] did: the state and the store it
    leaves, the transactions it ran (each with its operations), and
    whether its transaction committed. *)
Record Increment : Type := {
  inc_state : State;
  inc_store : Store;
  inc_transactions : list (list TxOp);
  inc_committed : bool
}.

Definition incrementUsage (__app_id : option string) (roleKey : string)
    (outcome : TxOutcome) (st : State) (s : Store) : Increment :=
  match db st, userIdSet (userId st) with
  | true, Some uid =>
      let docRef := getUsageDocRef __app_id uid in
      match runTransaction (incrementUsageTx docRef roleKey) outcome s with
      | (s', ops, None) =>
          {| inc_state := st; inc_store := s';
             inc_transactions := [ops]; inc_committed := true |}
      | (s', ops, Some message) =>
          {| inc_state :=
               setErrorMessage
                 (Some ("Failed to update usage count. Details: " +:+ message)) st;
             inc_store := s';
             inc_transactions := [ops]; inc_committed := false |}
      end
  | _, _ =>
      {| inc_state := st; inc_store := s;
         inc_transactions := []; inc_committed := false |}
  end.

(** *** The metered action *)

(** What one call of [handleAnalyze] did: the state and the store it
    leaves, whether the audit was started, and the usage transactions
    that were run. *)
Record Analysis : Type := {
  an_state : State;
  an_store : Store;
  an_auditStarted : bool;
  an_transactions : list (list TxOp)
}.

Section Analyze.
Variable StringToNumber : string → option Z.

(** The text shown when the trial is over; the source has it as a
    template literal starting with [Trial]. *)
Variable trialMessageTail : string.

(** Modelled from the spec: the source of [handleAnalyze] stops inside
    its paywall branch, after [setIsPaywallOpen(true)] and the start of
    [setErrorMessage]. The rest follows sections 3 and 4.1 of the
    specification: a blocked action does not proceed and increments no
    counter; an allowed one runs the audit, and a successful audit
    increments exactly one counter, the one named by [roleKey]. [audit]
    is the outcome of the audit: a report, or the message of the error
    it failed with. *)
Definition handleAnalyze (__app_id : option string)
    (audit : Report + string) (outcome : TxOutcome)
    (st : State) (s : Store) : Analysis :=
  let roleKey := "bidderChecks" in
  if isTrialOver StringToNumber (usageLimits st) then
    let st := setIsPaywallOpen true st in
    let st := setErrorMessage (Some ("Trial" +:+ trialMessageTail)) st in
    {| an_state := st; an_store := s;
       an_auditStarted := false; an_transactions := [] |}
  else
    match audit with
    | inl _ =>
        let inc := incrementUsage __app_id roleKey outcome st s in
        {| an_state := inc_state inc; an_store := inc_store inc;
           an_auditStarted := true;
           an_transactions := inc_transactions inc |}
    | inr message =>
        {| an_state := setErrorMessage (Some message) st; an_store := s;
           an_auditStarted := true; an_transactions := [] |}
    end.
End Analyze.

(** *** Fetching with retries *)

(** A promise once settled. *)
Inductive Settled (A : Type) : Type :=
| Resolved (a : A)
| Rejected (error : string).

Arguments Resolved {A} a.
Arguments Rejected {A} error.

(** What [fetchWithRetry] reads of a response: [response.ok],
    [response.status] and the body given by [response.text()]. *)
Record HttpResponse : Type := {
  ok : bool;
  http_status : N;
  text : string
}.

(** The network: what the call of [fetch] in iteration [i] settles to, a
    response or the message of the error it rejects with. *)
Definition Network : Type := nat → string + HttpResponse.

(** The body of the [try]: a response that is not [ok] is thrown as an
    error carrying the status and the first 100 characters of the body.
    The body is taken as read ([response.text()] resolves), and its
    characters are counted as the string has them, which is as the runtime
    counts them for a body written in ASCII. *)
Definition tryFetch (outcome : string + HttpResponse) : string + HttpResponse :=
  match outcome with
  | inl error => inl error
  | inr response =>
      if negb (ok response) then
        let errorBody := text response in
        inl ("HTTP error! Status: " +:+ pretty (http_status response)
             +:+ ". Details: " +:+ substring 0 100 errorBody +:+ "...")
      else inr response
  end.

(** One run of [fetchWithRetry]: what the promise settles to ([None] is
    [undefined]), the number of calls of [fetch], and the delays waited,
    in milliseconds and in order. *)
Record FetchRun : Type := {
  fr_result : Settled (option HttpResponse);
  fr_fetches : nat;
  fr_delays : list Z
}.

Definition afterFetch (run : FetchRun) : FetchRun :=
  {| fr_result := fr_result run; fr_fetches := S (fr_fetches run);
     fr_delays := fr_delays run |}.

Definition afterDelay (delay : Z) (run : FetchRun) : FetchRun :=
  {| fr_result := fr_result run; fr_fetches := fr_fetches run;
     fr_delays := delay :: fr_delays run |}.

(** The [for] loop from iteration [i] on; [fuel] bounds the iterations
    left and [fetchWithRetry] provides as many as the loop can take. *)
Fixpoint retryLoop (network : Network) (maxRetries fuel i : nat) : FetchRun :=
  match fuel with
  | O => {| fr_result := Resolved None; fr_fetches := 0; fr_delays := [] |}
  | S fuel =>
      if (i <? maxRetries)%nat then
        match tryFetch (network i) with
        | inr response =>
            afterFetch {| fr_result := Resolved (Some response);
                          fr_fetches := 0; fr_delays := [] |}
        | inl error =>
            if (i =? maxRetries - 1)%nat then
              afterFetch {| fr_result := Rejected error;
                            fr_fetches := 0; fr_delays := [] |}
            else
              let delay := 2 ^ Z.of_nat i * 1000 in
              afterFetch (afterDelay delay (retryLoop network maxRetries fuel (S i)))
        end
      else {| fr_result := Resolved None; fr_fetches := 0; fr_delays := [] |}
  end.

(** [fetchWithRetry(url, options, maxRetries = 3)] *)
Definition fetchWithRetry (network : Network) (maxRetries : nat) : FetchRun :=
  retryLoop network maxRetries maxRetries 0.

(** *** Reading an uploaded file *)

(** [s.split(sep)] for a one-character separator; [acc] is the segment
    being read. The result is never empty. *)
Fixpoint split_from (sep : ascii) (acc : string) (s : string) : list string :=
  match s with
  | EmptyString => [acc]
  | String c rest =>
      if Ascii.eqb c sep then acc :: split_from sep "" rest
      else split_from sep (acc +:+ String c "") rest
  end.

Definition split (sep : ascii) (s : string) : list string := split_from sep "" s.

(** [toLowerCase], character by character: the letters A to Z are lowered
    and every other character is kept. A string is the sequence of the
    bytes of its UTF-8 form, so this is [toLowerCase] on names written in
    ASCII; on other names the runtime also lowers letters beyond ASCII
    (É to é), which this does not. The extension is only compared with
    [txt], [pdf] and [docx], and no character beyond ASCII is lowered to
    one of their letters. *)
Definition lowerChar (c : ascii) : ascii :=
  let n := N_of_ascii c in
  if ((65 <=? n) && (n <=? 90))%N then ascii_of_N (n + 32) else c.

Fixpoint toLowerCase (s : string) : string :=
  match s with
  | EmptyString => EmptyString
  | String c rest => String (lowerChar c) (toLowerCase rest)
  end.

(** [file.name.split('.').pop().toLowerCase()] *)
Definition fileExtension (name : string) : string :=
  toLowerCase (default "" (last (split "."%char name))).

(** A file: its name, and what the [FileReader] makes of it, its content
    ([onload]) or nothing ([onerror]). *)
Record File : Type := {
  name : string;
  content : option string
}.

(** The parsing libraries loaded in the page, [None] when the global is
    missing ([pdfjsLib] also when it has no [getDocument]). A PDF parses
    into its pages, each the strings of its text items; a DOCX into its
    raw text; either parser may throw an error with a message. *)
Record Libraries : Type := {
  pdfjsLib : option (string → string + list (list string));
  mammoth : option (string → string + string)
}.

Inductive Reading : Type :=
| NoRead
| ReadAsText
| ReadAsArrayBuffer.

(** What the promise of [processFile] settles to: the extracted text, a
    rejection with a message, or a rejection with the error event of the
    reader. *)
Inductive Extraction : Type :=
| Extracted (fullText : string)
| Declined (message : string)
| ReaderFailed.

Record FileRun : Type := {
  pf_result : Extraction;
  pf_reading : Reading
}.

Definition newline : string := String (ascii_of_N 10) "".

(** The loop over the pages: [fullText += items.map(item => item.str)
    .join(' ') + '\n\n'], page after page. *)
Definition pdfText (pages : list (list string)) : string :=
  foldl (λ fullText items, fullText +:+ (String.concat " " items +:+ newline +:+ newline))
        "" pages.

Definition processFile (libs : Libraries) (file : File) : FileRun :=
  let fileExtension := fileExtension (name file) in
  if String.eqb fileExtension "txt" then
    {| pf_reading := ReadAsText;
       pf_result := match content file with
                    | Some result => Extracted result
                    | None => ReaderFailed
                    end |}
  else if String.eqb fileExtension "pdf" then
    match pdfjsLib libs with
    | None =>
        {| pf_reading := NoRead;
           pf_result := Declined "PDF parsing library (pdf.js) not fully loaded or initialized. PDF support disabled." |}
    | Some getDocument =>
        {| pf_reading := ReadAsArrayBuffer;
           pf_result := match content file with
                        | Some result =>
                            match getDocument result with
                            | inr pages => Extracted (pdfText pages)
                            | inl message =>
                                Declined ("Error parsing PDF. Detail: " +:+ message)
                            end
                        | None => ReaderFailed
                        end |}
    end
  else if String.eqb fileExtension "docx" then
    match mammoth libs with
    | None =>
        {| pf_reading := NoRead;
           pf_result := Declined "DOCX parsing library (mammoth.js) not loaded. DOCX support disabled." |}
    | Some extractRawText =>
        {| pf_reading := ReadAsArrayBuffer;
           pf_result := match content file with
                        | Some result =>
                            match extractRawText result with
                            | inr value => Extracted value
                            | inl message =>
                                Declined ("Error parsing DOCX. Detail: " +:+ message)
                            end
                        | None => ReaderFailed
                        end |}
    end
  else
    {| pf_reading := NoRead;
       pf_result := Declined "Unsupported file type. Please use .txt, .pdf, or .docx." |}.

End App.

(** ** The compliance percentage on binary64 numbers *)

(** [getCompliancePercentage] as the runtime computes it: the scores, the
    sum, the quotient and the product are binary64 numbers, each operation
    rounding to the nearest one, and [toFixed(1)] works on the exact value
    of the number it is given. *)
Module Double.

(** Of a finding the percentage reads the score only: a number, or
    [None] for a finding without the field. *)
Record Finding : Type := { complianceScore : option float }.

Record Report : Type := { findings : option (list Finding) }.

(** [v || 0] for a number or [undefined]: [NaN] and the two zeros are
    falsy. *)
Definition orZero (v : option float) : float :=
  match v with
  | Some x => if is_nan x || PrimFloat.eqb x 0 then 0%float else x
  | None => 0%float
  end.

(** [findings.reduce((sum, item) => sum + (item.complianceScore || 0), 0)] *)
Definition totalScore (findings : list Finding) : float :=
  foldl (λ sum item, (sum + orZero (complianceScore item))%float) 0%float findings.

(** [findings.length] as a number. An array has fewer than 2^32 elements,
    and every integer below 2^53 is a number. *)
Definition ofLength (n : nat) : float :=
  PrimFloat.of_uint63 (Uint63.of_Z (Z.of_nat n)).

(** The value of the finite number of mantissa [m] and exponent [e],
    sign apart: [m * 2^e]. *)
Definition magnitude (m : positive) (e : Z) : Q := (inject_Z (Z.pos m) * 2 ^ e)%Q.

(** The exact value of a number, [None] for [NaN] and the infinities. *)
Definition exact (x : float) : option Q :=
  match Prim2SF x with
  | S754_zero _ => Some 0%Q
  | S754_finite s m e => Some (if s then - magnitude m e else magnitude m e)%Q
  | S754_infinity _ | S754_nan => None
  end.


(** [parseFloat] of a decimal with one digit after the point, [tenths]
    being its digits read as one integer and [negative] telling whether a
    minus sign stands first: the number nearest to [tenths / 10], with the
    sign ([-0] for [-0.0]). *)
Definition readDecimal (negative : bool) (tenths : Z) : float :=
  let magnitude :=
    match tenths with
    | Zpos n =>
        SF2Prim (SFdiv prec emax (S754_finite false n 0) (S754_finite false 10 0))
    | _ => 0%float
    end in
  if negative then (- magnitude)%float else magnitude.

(** [parseFloat(x.toFixed(1))]. For a finite [x] below 10^21 in
    magnitude, [toFixed(1)] writes the integer [n] for which [n / 10] is
    nearest to the exact value of [x], the larger [n] when two are equally
    near, after a minus sign when [x < 0]; a zero is written [0.0]. From
    10^21 on, and for [NaN] and the infinities, it writes [x] as [String]
    does, and [parseFloat] reads [x] back. *)
Definition toFixed1 (x : float) : float :=
  match Prim2SF x with
  | S754_finite s m e =>
      if Qle_bool (10 ^ 21) (magnitude m e) then x
      else readDecimal s (Qfloor (magnitude m e * 10 + (1 # 2))%Q)
  | S754_zero _ => 0%float
  | S754_infinity _ | S754_nan => x
  end.

(** [maxScore > 0 ? parseFloat(((totalScore / maxScore) * 100).toFixed(1)) : 0]
    with [findings = report.findings || []]. [maxScore] is the length of
    the array taken as a number, times 1: it is positive exactly when the
    array has an element, and the test is made on the length. *)
Definition getCompliancePercentage (report : Report) : float :=
  let findings := default [] (findings report) in
  let totalScore := totalScore findings in
  let totalRequirements := length findings in
  let maxScore := (ofLength totalRequirements * 1)%float in
  if (0 <? totalRequirements)%nat
  then toFixed1 ((totalScore / maxScore) * 100)%float
  else 0%float.

End Double.

(** ** The sign-in page (AuthPage in App.jsx) *)

Module AuthPage.

(** An entry of the user directory [mockUsers]. *)
Record User : Type := {
  password : string;
  name : string;
  role : string;
  designation : string;
  company : string;
  email : string;
  phone : string
}.

#[global] Instance User_eq_dec : EqDecision User.
Proof. solve_decision. Defined.

(** [{ login: loginForm.login, ...user }] *)
Record UserData : Type := {
  login : string;
  user : User
}.

Inductive PAGE : Type :=
| HOME
| COMPLIANCE_CHECK
| ADMIN
| HISTORY.

Record RegForm : Type := {
  reg_name : string;
  reg_designation : string;
  reg_company : string;
  reg_email : string;
  reg_phone : string;
  reg_login : string;
  reg_password : string
}.

(** [regForm[field]] *)
Definition regField (regForm : RegForm) (field : string) : string :=
  if String.eqb field "name" then reg_name regForm
  else if String.eqb field "designation" then reg_designation regForm
  else if String.eqb field "company" then reg_company regForm
  else if String.eqb field "email" then reg_email regForm
  else if String.eqb field "phone" then reg_phone regForm
  else if String.eqb field "login" then reg_login regForm
  else if String.eqb field "password" then reg_password regForm
  else "".

Record LoginForm : Type := {
  login_login : string;
  login_password : string
}.

(** The state the two handlers read and set: the directory, the user
    signed in, the page shown, the message shown and the submit flag. *)
Record State : Type := {
  mockUsers : gmap string User;
  currentUser : option UserData;
  currentPage : PAGE;
  errorMessage : option string;
  isSubmitting : bool
}.

Definition setMockUsers (f : gmap string User → gmap string User) (st : State) : State :=
  {| mockUsers := f (mockUsers st); currentUser := currentUser st;
     currentPage := currentPage st; errorMessage := errorMessage st;
     isSubmitting := isSubmitting st |}.

Definition setCurrentUser (v : option UserData) (st : State) : State :=
  {| mockUsers := mockUsers st; currentUser := v;
     currentPage := currentPage st; errorMessage := errorMessage st;
     isSubmitting := isSubmitting st |}.

Definition setCurrentPage (v : PAGE) (st : State) : State :=
  {| mockUsers := mockUsers st; currentUser := currentUser st;
     currentPage := v; errorMessage := errorMessage st;
     isSubmitting := isSubmitting st |}.

Definition setErrorMessage (v : option string) (st : State) : State :=
  {| mockUsers := mockUsers st; currentUser := currentUser st;
     currentPage := currentPage st; errorMessage := v;
     isSubmitting := isSubmitting st |}.

Definition setIsSubmitting (v : bool) (st : State) : State :=
  {| mockUsers := mockUsers st; currentUser := currentUser st;
     currentPage := currentPage st; errorMessage := errorMessage st;
     isSubmitting := v |}.

(** The outcome of a handler: the state when it returns, and the callback
    it left with [setTimeout], with its delay in milliseconds. *)
Record Handled : Type := {
  now : State;
  later : option (Z * (State → State))
}.

(** The state once the timer, if any, has fired on the state the handler
    left. *)
Definition settled (h : Handled) : State :=
  match later h with
  | Some (_, callback) => callback (now h)
  | None => now h
  end.

(** The directory is an object literal: reading a key that is not a user
    finds what [Object.prototype] has under that name, if anything, and
    that is an object or a function (truthy, without [password]). *)
Definition inheritedKeys : list string :=
  [ "constructor"; "hasOwnProperty"; "isPrototypeOf"; "propertyIsEnumerable";
    "toLocaleString"; "toString"; "valueOf"; "__proto__";
    "__defineGetter__"; "__defineSetter__"; "__lookupGetter__"; "__lookupSetter__" ].

Definition inherited (key : string) : bool :=
  existsb (String.eqb key) inheritedKeys.

(** [mockUsers[key]] as a condition. *)
Definition found (mockUsers : gmap string User) (key : string) : bool :=
  match mockUsers !! key with
  | Some _ => true
  | None => inherited key
  end.

Definition required : list string :=
  ["name"; "designation"; "company"; "email"; "login"; "password"].

Definition handleRegister (regForm : RegForm) (st : State) : Handled :=
  let st := setErrorMessage None st in
  let st := setIsSubmitting true st in
  let missing := filter (λ field, regField regForm field = "") required in
  if (0 <? length missing)%nat then
    let st := setErrorMessage
                (Some ("Please fill all required fields: "
                       +:+ String.concat ", " missing +:+ ".")) st in
    {| now := setIsSubmitting false st; later := None |}
  else if found (mockUsers st) (reg_login regForm) then
    let st := setErrorMessage
                (Some "Registration failed: This login/email is already taken.") st in
    {| now := setIsSubmitting false st; later := None |}
  else
    {| now := st;
       later := Some (1000, λ st,
         let newUser :=
           {| password := reg_password regForm;
              name := reg_name regForm;
              role := "USER";
              designation := reg_designation regForm;
              company := reg_company regForm;
              email := reg_email regForm;
              phone := reg_phone regForm |} in
         let st := setMockUsers (λ prev, <[reg_login regForm := newUser]> prev) st in
         let st := setErrorMessage
                     (Some ("Success! User '" +:+ reg_login regForm
                            +:+ "' registered. Please use the Login form to continue.")) st in
         setIsSubmitting false st) |}.

Definition handleLogin (loginForm : LoginForm) (st : State) : Handled :=
  let st := setErrorMessage None st in
  let st := setIsSubmitting true st in
  if String.eqb (login_login loginForm) ""
     || String.eqb (login_password loginForm) "" then
    let st := setErrorMessage (Some "Please enter both login/email and password.") st in
    {| now := setIsSubmitting false st; later := None |}
  else
    match mockUsers st !! login_login loginForm with
    | Some user =>
        if String.eqb (password user) (login_password loginForm) then
          {| now := st;
             later := Some (500, λ st,
               let userData := {| login := login_login loginForm; user := user |} in
               let st := setCurrentUser (Some userData) st in
               let st := setErrorMessage
                           (Some ("Login successful. Welcome back, "
                                  +:+ name user +:+ "!")) st in
               let st := if String.eqb (role user) "ADMIN"
                         then setCurrentPage ADMIN st
                         else setCurrentPage COMPLIANCE_CHECK st in
               setIsSubmitting false st) |}
        else
          let st := setErrorMessage
                      (Some "Login failed: Invalid username or password.") st in
          {| now := setIsSubmitting false st; later := None |}
    | None =>
        (* an inherited property has no [password]: the comparison fails *)
        let st := setErrorMessage
                    (Some "Login failed: Invalid username or password.") st in
        {| now := setIsSubmitting false st; later := None |}
    end.

(** The directory [App] starts with. *)
Definition initialMockUsers : gmap string User :=
  <["myuser" := {| password := "123"; name := "My User"; role := "USER";
                   designation := "Procurement Analyst"; company := "BidCorp";
                   email := "myuser@demo.com"; phone := "555-1234" |}]>
  (<["auditor" := {| password := "456"; name := "Auditor Smith"; role := "USER";
                     designation := "Junior Analyst"; company := "AuditCo";
                     email := "auditor@demo.com"; phone := "555-9012" |}]>
  (<["admin" := {| password := "pass"; name := "System Admin"; role := "ADMIN";
                   designation := "Lead Administrator"; company := "SmartBids Inc";
                   email := "admin@smartbids.com"; phone := "555-5678" |}]> ∅)).

End AuthPage.

(** ** The report history (effect 3 of App) *)

Module History.

(** A document of the reports collection, as far as the listener reads
    it: its id, the [userLogin] and [timestamp] fields (each may be
    missing; a timestamp is a number), and the other fields, carried
    along. *)
Record ReportDoc : Type := {
  id : string;
  userLogin : option string;
  timestamp : option Z;
  fields : gmap string value
}.

(** [query(reportsRef)], narrowed by [where('userLogin', '==', login)]
    for a user who is not an admin: the store returns the documents whose
    field is that string, in the order it keeps them. *)
Definition reportsQuery (currentUser : AuthPage.UserData)
    (collection : list ReportDoc) : list ReportDoc :=
  if negb (String.eqb (AuthPage.role (AuthPage.user currentUser)) "ADMIN") then
    filter (λ doc, userLogin doc = Some (AuthPage.login currentUser)) collection
  else collection.

(** [(b.timestamp || 0) - (a.timestamp || 0)] *)
Definition compareReports (a b : ReportDoc) : Z :=
  default 0 (timestamp b) - default 0 (timestamp a).

(** [array.sort(compare)]: the sort is stable, so for a comparator that
    orders by a key the result is the one of inserting each element, from
    the last to the first, before the first element it must precede. *)
Fixpoint insertSorted {A} (compare : A → A → Z) (x : A) (l : list A) : list A :=
  match l with
  | [] => [x]
  | y :: rest =>
      if compare x y <=? 0 then x :: y :: rest
      else y :: insertSorted compare x rest
  end.

Definition sort {A} (compare : A → A → Z) (l : list A) : list A :=
  foldr (insertSorted compare) [] l.

(** The effect: with a store, a Firebase user and a signed-in user, the
    listener turns each snapshot of the query into the history, newest
    first; otherwise the history is cleared. *)
Definition reportsHistory (db : bool) (userId : option string)
    (currentUser : option AuthPage.UserData) (collection : list ReportDoc)
  : list ReportDoc :=
  match db, App.userIdSet userId, currentUser with
  | true, Some _, Some currentUser =>
      let history := reportsQuery currentUser collection in
      sort compareReports history
  | _, _, _ => []
  end.

End History.

(** ** The server (server.cjs) *)

Module Server.

(** The configuration read at start-up: the two billing secrets of
    [process.env], and [admin.apps.length] after the initialisation
    block. *)
Record Env : Type := {
  STRIPE_SECRET_KEY : option string;
  STRIPE_WEBHOOK_SECRET : option string;
  admin_apps_length : nat
}.

(** Truthiness of a string or [undefined]/[null]. *)
Definition isSet (v : option string) : bool :=
  match v with
  | Some s => negb (String.eqb s "")
  | None => false
  end.

(** The object of a billing event, as far as the webhook reads it; both
    fields are a string or [null]. *)
Record Session : Type := {
  client_reference_id : option string;
  customer : option string
}.

Record Event : Type := {
  type : string;
  data_object : Session
}.

(** The billing provider's library. [constructEvent rawBody sig secret]
    returns the verified event or throws an error with a message;
    [billingPortal_sessions_create key customer return_url] returns the
    URL of the session or throws. *)
Record Stripe : Type := {
  constructEvent : option string → option string → option string → Event + string;
  billingPortal_sessions_create : string → value → string → string + string
}.

(** The exceptions of the libraries, by origin. *)
Inductive Thrown : Type :=
| FirebaseAppMissing
| InvalidDocumentId (id : option string)
| StripeFailure (message : string).

Inductive Body : Type :=
| Empty
| Text (s : string)
| JsonUrl (url : string)
| JsonError (message : string)
| JsonErrorOf (e : Thrown).

Record Response : Type := { status : nat; body : Body }.

(** What leaves the process while a request is handled. *)
Inductive Effect : Type :=
| Lookup (ref : string)
| Write (ref : string) (data : Doc)
| PortalCall (customer : value) (return_url : string).

(** The outcome of a request: the response ([None] when the handler
    rejected before it sent one), the store afterwards, and the calls
    made to the store and to the billing provider, in order. *)
Record Result : Type := {
  response : option Response;
  store : Store;
  effects : list Effect
}.

Definition respond (code : nat) (b : Body) (s : Store) (fx : list Effect) : Result :=
  {| response := Some {| status := code; body := b |}; store := s; effects := fx |}.

Definition rejected (s : Store) (fx : list Effect) : Result :=
  {| response := None; store := s; effects := fx |}.

(** A string or [null] as a value. *)
Definition nullable (v : option string) : value :=
  match v with
  | Some x => JStr x
  | None => JNull
  end.

(** [users/{userId}/usage_limits/main_tracker] *)
Definition usageDocPath (userId : string) : string :=
  "users/" +:+ userId +:+ "/usage_limits/" +:+ "main_tracker".

Section Routes.
Variable stripe : Stripe.

(** The store client's check of the argument of [.doc(id)]. *)
Variable validDocumentId : string → bool.

Variable env : Env.

(** [admin.firestore().collection('users').doc(userId)
    .collection('usage_limits').doc('main_tracker')] *)
Definition usageDocRef (userId : option string) : Thrown + string :=
  if (admin_apps_length env =? 0)%nat then inl FirebaseAppMissing
  else
    match userId with
    | Some u =>
        if validDocumentId u then inr (usageDocPath u)
        else inl (InvalidDocumentId userId)
    | None => inl (InvalidDocumentId None)
    end.

(** [POST /api/create-portal-session] with body [{userId}]. *)
Definition createPortalSession (userId : option string) (s : Store) : Result :=
  if negb (isSet (STRIPE_SECRET_KEY env)) then
    respond 500 (JsonError "Server missing Stripe Key") s []
  else
    let key := default "" (STRIPE_SECRET_KEY env) in
    match usageDocRef userId with
    | inl e => respond 500 (JsonErrorOf e) s []
    | inr ref =>
        let userDoc := get s ref in
        let stripeCustomerId := userDoc ≫= (λ data, data !! "stripeCustomerId") in
        if negb (truthy stripeCustomerId) then
          respond 404 (JsonError "No subscription found for this user.")
            s [Lookup ref]
        else
          let customer := default JNull stripeCustomerId in
          let return_url := "https://smartbid-secure.onrender.com" in
          match billingPortal_sessions_create stripe key customer return_url with
          | inl url =>
              respond 200 (JsonUrl url) s [Lookup ref; PortalCall customer return_url]
          | inr message =>
              respond 500 (JsonErrorOf (StripeFailure message))
                s [Lookup ref; PortalCall customer return_url]
          end
    end.

(** [{ isSubscribed: true, stripeCustomerId: stripeCustomerId }] *)
Definition subscriptionData (stripeCustomerId : option string) : Doc :=
  <["isSubscribed" := JBool true]>
    (<["stripeCustomerId" := nullable stripeCustomerId]> ∅).

(** The branch for [checkout.session.completed]: the new store and the
    write, or the exception the store client threw. *)
Definition checkoutCompleted (session : Session) (s : Store)
  : Thrown + Store * list Effect :=
  let userId := client_reference_id session in
  let stripeCustomerId := customer session in
  if isSet userId && negb (admin_apps_length env =? 0)%nat then
    match usageDocRef userId with
    | inl e => inl e
    | inr ref =>
        let data := subscriptionData stripeCustomerId in
        inr (set_merge s ref data, [Write ref data])
    end
  else inr (s, []).

(** [POST /api/webhook]; [rawBody] is [req.rawBody] and [sig] the
    [stripe-signature] header. The handler first builds the client object,
    [require('stripe')(STRIPE_SECRET_KEY)], outside the [try]: the
    constructor throws on a key that is missing or empty, and the handler
    then ends without a response. Verification, inside the [try], reads
    the webhook secret only. A rejected store write is not caught either:
    there too the handler ends without a response. *)
Definition webhook (rawBody sig : option string) (s : Store) : Result :=
  if negb (isSet (STRIPE_SECRET_KEY env)) then rejected s []
  else
    match constructEvent stripe rawBody sig (STRIPE_WEBHOOK_SECRET env) with
    | inr message => respond 400 (Text ("Webhook Error: " +:+ message)) s []
    | inl event =>
        let afterCheckout :=
          if String.eqb (type event) "checkout.session.completed"
          then checkoutCompleted (data_object event) s
          else inr (s, []) in
        match afterCheckout with
        | inl _ => rejected s []
        | inr (s', fx) =>
            (* [customer.subscription.deleted]: the branch has no statement *)
            let s' := if String.eqb (type event) "customer.subscription.deleted"
                      then s' else s' in
            respond 200 Empty s' fx
        end
    end.
End Routes.

End Server.

Import App Server.

(** * Vocabulary of the statements *)

(** The record of a user who has used nothing and has not subscribed:
    both counters at 0, no subscription. *)
Definition zeroRecord : Doc :=
  {[ "bidderChecks" := JNum 0; "initiatorChecks" := JNum 0;
     "isSubscribed" := JBool false ]}.

(** The record a transaction works on: the stored one, or the all-zero,
    unsubscribed record when none is stored. *)
Definition recordOrInitial (s : Store) (ref : string) : Doc :=
  default zeroRecord (s !! ref).

(** The count a field stands for: 0 when the field is missing, its value
    when it is an integer that counts something, that is, not a negative
    one. *)
Definition countOf (v : option value) : option Z :=
  match v with
  | None => Some 0
  | Some (JNum n) => if 0 <=? n then Some n else None
  | Some _ => None
  end.



(** The percentage before it is rounded to one decimal, as the runtime
    has it: the binary64 sum of the scores, divided by the number of
    findings and multiplied by 100, each operation rounding. *)
Definition unrounded (fs : list Double.Finding) : float :=
  (Double.totalScore fs / (Double.ofLength (length fs) * 1) * 100)%float.

(** The delay after a failed iteration [i]: [Math.pow(2, i) * 1000]. *)
Definition backoff (i : nat) : Z := 2 ^ Z.of_nat i * 1000.

Definition totalDelay (delays : list Z) : Z := foldr Z.add 0 delays.

(** Iteration [i] fails: [fetch] rejects or the response is not [ok]. *)
Definition failsAt (network : Network) (i : nat) : Prop :=
  ∃ error, tryFetch (network i) = inl error.

(** The string has no occurrence of the character. *)
Fixpoint freeOf (sep : ascii) (s : string) : bool :=
  match s with
  | EmptyString => true
  | String c rest => negb (Ascii.eqb c sep) && freeOf sep rest
  end.

(** The lower-case form of a letter, by the alphabet; any other
    character is its own. *)
Definition lowerLetter (c : ascii) : ascii :=
  match c with
  | "A" => "a" | "B" => "b" | "C" => "c" | "D" => "d" | "E" => "e"
  | "F" => "f" | "G" => "g" | "H" => "h" | "I" => "i" | "J" => "j"
  | "K" => "k" | "L" => "l" | "M" => "m" | "N" => "n" | "O" => "o"
  | "P" => "p" | "Q" => "q" | "R" => "r" | "S" => "s" | "T" => "t"
  | "U" => "u" | "V" => "v" | "W" => "w" | "X" => "x" | "Y" => "y"
  | "Z" => "z" | _ => c
  end%char.

(** The string with each of its letters in lower case. *)
Fixpoint lowered (s : string) : string :=
  match s with
  | EmptyString => EmptyString
  | String c rest => String (lowerLetter c) (lowered rest)
  end.

(** The string is written in ASCII: each of its characters is below 128. *)
Fixpoint asciiOnly (s : string) : bool :=
  match s with
  | EmptyString => true
  | String c rest => (N_of_ascii c <? 128)%N && asciiOnly rest
  end.

(** The text of one page: its items joined by single spaces, then two
    newlines. *)
Definition pageText (items : list string) : string :=
  String.concat " " items +:+ newline +:+ newline.

(** The registration form has every required field filled in; the phone
    number is not among them. *)
Definition regFormComplete (regForm : AuthPage.RegForm) : Prop :=
  AuthPage.reg_name regForm ≠ "" ∧ AuthPage.reg_designation regForm ≠ ""
  ∧ AuthPage.reg_company regForm ≠ "" ∧ AuthPage.reg_email regForm ≠ ""
  ∧ AuthPage.reg_login regForm ≠ "" ∧ AuthPage.reg_password regForm ≠ "".

(** [a] may stand before [b] in a history: [b] is not newer than [a], a
    missing timestamp counting as 0. *)
Definition notOlder (a b : History.ReportDoc) : Prop :=
  default 0 (History.timestamp b) ≤ default 0 (History.timestamp a).

(** [n] calls of [incrementUsage] one after the other, each on the state
    and the store the previous one left, each transaction committing. *)
Fixpoint repeatIncrement (__app_id : option string) (roleKey : string) (n : nat)
    (st : State) (s : Store) : State * Store :=
  match n with
  | O => (st, s)
  | S n =>
      let r := incrementUsage __app_id roleKey Commit st s in
      repeatIncrement __app_id roleKey n (inc_state r) (inc_store r)
  end.


(** * Sample data

    Concrete states, stores, requests and a stand-in billing library, on
    which the definitions above are run. *)

Definition sampleState : State :=
  {| db := true; userId := Some "u1"; usageLimits := initialData;
     isPaywallOpen := false; errorMessage := None |}.

Definition sampleRecord (bidderChecks : Z) : Doc :=
  <["bidderChecks" := JNum bidderChecks]>
    (<["isSubscribed" := JBool false]> (<["plan" := JStr "trial"]> ∅)).

Definition sampleStore (bidderChecks : Z) : Store :=
  {[ getUsageDocRef None "u1" := sampleRecord bidderChecks ]}.

(** A stand-in for the provider's library, to run the routes on concrete
    requests: a signature is the secret followed by the body; the body
    ["checkout"] is a completed checkout of user [u1] by customer [cus_1],
    the body ["checkout a/b"] one whose user reference is [a/b], and any
    other body is an event of that type without references. *)
Definition sampleEvent (body : string) : Event :=
  if String.eqb body "checkout"
  then {| type := "checkout.session.completed";
          data_object := {| client_reference_id := Some "u1";
                            customer := Some "cus_1" |} |}
  else if String.eqb body "checkout a/b"
  then {| type := "checkout.session.completed";
          data_object := {| client_reference_id := Some "a/b";
                            customer := Some "cus_2" |} |}
  else {| type := body;
          data_object := {| client_reference_id := None; customer := None |} |}.

Definition sampleStripe : Stripe :=
  {| constructEvent := λ rawBody sig secret,
       match rawBody, sig, secret with
       | Some body, Some sg, Some sec =>
           if String.eqb sg (sec +:+ body) then inl (sampleEvent body)
           else inr "No signatures found matching the expected signature"
       | _, _, _ => inr "No stripe-signature header value was provided"
       end;
     billingPortal_sessions_create := λ key customer return_url,
       match customer with
       | JStr id => inl ("https://billing.example/session/" +:+ id)
       | _ => inr "No such customer"
       end |}.

Fixpoint flatId (id : string) : bool :=
  match id with
  | EmptyString => true
  | String c rest => negb (Ascii.eqb c "/"%char) && flatId rest
  end.

Definition sampleValidId (id : string) : bool :=
  negb (String.eqb id "") && flatId id.

Definition sampleEnv : Env :=
  {| STRIPE_SECRET_KEY := Some "sk_test";
     STRIPE_WEBHOOK_SECRET := Some "whsec_";
     admin_apps_length := 1 |}.

(** The delivery of the event of [body], signed with the webhook secret. *)
Definition sampleDelivery (env : Env) (body : string) (s : Store) : Result :=
  webhook sampleStripe sampleValidId env (Some body) (Some ("whsec_" +:+ body)) s.

Definition sampleUsers : Store :=
  {[ usageDocPath "u1" := sampleRecord 3 ]}.

Definition sampleLinkedUsers : Store :=
  {[ usageDocPath "u1" := <["stripeCustomerId" := JStr "cus_1"]> (sampleRecord 3) ]}.

Definition sampleEnvNoKey : Env :=
  {| STRIPE_SECRET_KEY := None;
     STRIPE_WEBHOOK_SECRET := Some "whsec_";
     admin_apps_length := 1 |}.

Definition sampleBlockedState : State :=
  setUsageLimits (sampleRecord 3) sampleState.


Definition scored (score : float) : Double.Finding :=
  {| Double.complianceScore := Some score |}.


(** Forty findings, twenty-three of them half met: the scores sum to
    11.5. *)
Definition sampleAudit : list Double.Finding :=
  (replicate 23 (scored 0.5) ++ replicate 17 (scored 0))%list.

Definition sampleResponse : HttpResponse :=
  {| ok := true; http_status := 200; text := "{}" |}.

Definition sampleOverloaded : HttpResponse :=
  {| ok := false; http_status := 503; text := "model overloaded" |}.

(** A network that drops the first call, answers 503 to the second and
    serves the third. *)
Definition sampleNetwork : Network :=
  λ i, match i with
       | O => inl "Failed to fetch"
       | S O => inr sampleOverloaded
       | _ => inr sampleResponse
       end.

(** A network that answers 503 to every call. *)
Definition sampleDeadNetwork : Network := λ _, inr sampleOverloaded.

Definition sampleLibraries : Libraries :=
  {| pdfjsLib := Some (λ data, if String.eqb data "" then inl "Invalid PDF structure"
                               else inr [["Scope"; "of"; "work"]; ["Terms"]]);
     mammoth := None |}.

Definition sampleRegForm : AuthPage.RegForm :=
  {| AuthPage.reg_name := "Dana Reyes"; AuthPage.reg_designation := "Bid Manager";
     AuthPage.reg_company := "Northwind"; AuthPage.reg_email := "dana@northwind.example";
     AuthPage.reg_phone := ""; AuthPage.reg_login := "dana";
     AuthPage.reg_password := "s3cret" |}.

Definition sampleAuthState : AuthPage.State :=
  {| AuthPage.mockUsers := AuthPage.initialMockUsers;
     AuthPage.currentUser := None;
     AuthPage.currentPage := AuthPage.HOME;
     AuthPage.errorMessage := None;
     AuthPage.isSubmitting := false |}.

Definition sampleReports : list History.ReportDoc :=
  [ {| History.id := "r1"; History.userLogin := Some "myuser";
       History.timestamp := Some 1700000000000; History.fields := ∅ |};
    {| History.id := "r2"; History.userLogin := Some "auditor";
       History.timestamp := Some 1700000500000; History.fields := ∅ |};
    {| History.id := "r3"; History.userLogin := Some "myuser";
       History.timestamp := None; History.fields := ∅ |};
    {| History.id := "r4"; History.userLogin := Some "myuser";
       History.timestamp := Some 1700000900000; History.fields := ∅ |} ].

Definition sampleUserData : AuthPage.UserData :=
  {| AuthPage.login := "myuser";
     AuthPage.user :=
       {| AuthPage.password := "123"; AuthPage.name := "My User";
          AuthPage.role := "USER"; AuthPage.designation := "Procurement Analyst";
          AuthPage.company := "BidCorp"; AuthPage.email := "myuser@demo.com";
          AuthPage.phone := "555-1234" |} |}.

Definition sampleEnvNoFirebase : Env :=
  {| STRIPE_SECRET_KEY := Some "sk_test";
     STRIPE_WEBHOOK_SECRET := Some "whsec_";
     admin_apps_length := 0 |}.

(** A linked user whose customer the provider does not know. *)
Definition sampleStaleUsers : Store :=
  {[ usageDocPath "u1" := <["stripeCustomerId" := JNum 7]> (sampleRecord 3) ]}.

(** * Properties *)

(** ** The trial gate *)

(** C1. For a usage record whose [bidderChecks] is an integer and whose
    [isSubscribed] is a boolean, and for every integer limit, the gate
    blocks if and only if [bidderChecks >= limit] and [isSubscribed] is
    false. The gate is a function of the record alone: it reads no store
    and writes nothing. [isTrialOver] is the gate at the limit
    [FREE_TRIAL_LIMIT = 3]. *)
Theorem isBlocked_iff (StringToNumber : string → option Z)
    (usage : Doc) (limit n : Z) (b : bool) :
  usage !! "bidderChecks" = Some (JNum n) →
  usage !! "isSubscribed" = Some (JBool b) →
  (isBlocked StringToNumber usage limit = true ↔ limit ≤ n ∧ b = false)
  ∧ isTrialOver StringToNumber usage = isBlocked StringToNumber usage 3
  ∧ FREE_TRIAL_LIMIT = 3.
Proof.
  intros Hn Hb. unfold isTrialOver, isBlocked, ge_num, FREE_TRIAL_LIMIT.
  rewrite Hn, Hb. cbn [to_number truthy].
  split; [|done].
  rewrite andb_true_iff, Z.leb_le, negb_true_iff. tauto.
Qed.

Lemma isBlocked_iff_witness :
  (isBlocked (λ _, None) (<["bidderChecks" := JNum 10]> initialData) 3 = true
     ↔ 3 ≤ 10 ∧ false = false)
  ∧ isTrialOver (λ _, None) (<["bidderChecks" := JNum 10]> initialData)
    = isBlocked (λ _, None) (<["bidderChecks" := JNum 10]> initialData) 3
  ∧ FREE_TRIAL_LIMIT = 3.
Proof.
  apply (isBlocked_iff (λ _, None) (<["bidderChecks" := JNum 10]> initialData)
           3 10 false); reflexivity.
Defined.

(** The values the specification lists: limit 3 and [bidderChecks] among
    0, 1, 2, 3 and 10, subscribed or not. *)
Example isTrialOver_table :
  map (λ n, isTrialOver (λ _, None) (<["bidderChecks" := JNum n]> initialData))
      [0; 1; 2; 3; 10]
    = [false; false; false; true; true]
  ∧ map (λ n, isTrialOver (λ _, None)
                (<["isSubscribed" := JBool true]>
                   (<["bidderChecks" := JNum n]> initialData)))
      [0; 1; 2; 3; 10]
    = [false; false; false; false; false].
Proof. split; reflexivity. Qed.

(** ** The counter update *)

Lemma initialData_zeroRecord : initialData = zeroRecord.
Proof. reflexivity. Qed.

Lemma toDouble_small (z : Z) : Z.abs z ≤ 2 ^ 53 → toDouble z = z.
Proof.
  intros Hz. unfold toDouble. cbv zeta.
  destruct (Z.leb_spec (Z.log2 (Z.abs z) - 52) 0) as [|He]; [done|].
  assert (Habs : Z.abs z = 2 ^ 53).
  { destruct (Z.lt_ge_cases (Z.abs z) (2 ^ 53)) as [Hlt|]; [|lia].
    assert (0 < Z.abs z) by (destruct (Z.abs z) eqn:E; cbn in He; lia).
    apply Z.log2_lt_pow2 in Hlt; lia. }
  assert (Hcases : z = 2 ^ 53 ∨ z = - 2 ^ 53) by lia.
  destruct Hcases as [-> | ->]; reflexivity.
Qed.

Lemma toDouble_large (z : Z) : 2 ^ 53 ≤ z → 2 ^ 53 ≤ toDouble z.
Proof.
  intros Hz. unfold toDouble. cbv zeta.
  destruct (Z.leb_spec (Z.log2 (Z.abs z) - 52) 0) as [|He]; [done|].
  rewrite (Z.abs_eq z), (Z.sgn_pos z) by lia.
  rewrite Z.abs_eq in He by lia.
  set (e := Z.log2 z - 52) in *.
  assert (Hp : 2 ≤ 2 ^ e)
    by (change 2 with (2 ^ 1) at 1; apply Z.pow_le_mono_r; lia).
  assert (Hlow : 2 ^ 52 * 2 ^ e ≤ z).
  { rewrite <- Z.pow_add_r by lia. replace (52 + e) with (Z.log2 z) by (unfold e; lia).
    apply Z.log2_spec. lia. }
  assert (Hq : 2 ^ 52 ≤ z / 2 ^ e)
    by (apply Z.div_le_lower_bound; lia).
  set (q := z / 2 ^ e) in *. set (p := 2 ^ e) in *.
  assert (H53 : 2 ^ 53 = 2 ^ 52 * 2) by reflexivity.
  destruct (_ || _); nia.
Qed.

Lemma addNumbers_exact (c : Z) : 0 ≤ c → c < 2 ^ 53 → addNumbers c 1 = c + 1.
Proof.
  intros H0 Hc. unfold addNumbers.
  rewrite (toDouble_small c), (toDouble_small 1) by lia.
  apply toDouble_small. lia.
Qed.

Lemma addNumbers_large (c : Z) : 2 ^ 53 ≤ c → 2 ^ 53 ≤ addNumbers c 1.
Proof.
  intros Hc. unfold addNumbers. apply toDouble_large.
  pose proof (toDouble_large c Hc). rewrite (toDouble_small 1) by lia. lia.
Qed.

Lemma addNumbers_nonneg (c : Z) : 0 ≤ c → 0 ≤ addNumbers c 1.
Proof.
  intros Hc. destruct (Z.lt_ge_cases c (2 ^ 53)).
  - rewrite addNumbers_exact by lia. lia.
  - pose proof (addNumbers_large c). lia.
Qed.

Lemma countOf_nonneg (v : option value) (n : Z) : countOf v = Some n → 0 ≤ n.
Proof.
  destruct v as [[| |m|]|]; cbn; try discriminate.
  - destruct (Z.leb_spec 0 m); [|discriminate]. intros [= <-]. done.
  - intros [= <-]. done.
Qed.

Lemma countOf_JNum (n : Z) : 0 ≤ n → countOf (Some (JNum n)) = Some n.
Proof. intros Hn. cbn. by destruct (Z.leb_spec 0 n); [|lia]. Qed.

Lemma newCount_countOf (v : option value) (n : Z) :
  countOf v = Some n → plus_one (or_else v (JNum 0)) = JNum (addNumbers n 1).
Proof.
  destruct v as [[| |m|]|]; cbn; try discriminate; [|by intros [= <-]].
  destruct (Z.leb_spec 0 m); [|discriminate]. intros [= <-].
  destruct (Z.eqb_spec m 0) as [->|]; done.
Qed.

(** A counter key is looked up in the record alone: nothing is inherited
    under it. *)
Lemma countPlusOne_own (d : Doc) (roleKey : string) :
  roleKey ∉ prototypeKeys →
  countPlusOne d roleKey = plus_one (or_else (d !! roleKey) (JNum 0)).
Proof.
  intros Hown. unfold countPlusOne, inheritedText.
  rewrite bool_decide_eq_false_2 by done. by destruct (d !! roleKey).
Qed.

Lemma assign_own (d : Doc) (roleKey : string) (v : value) :
  roleKey ∉ prototypeKeys → assign d roleKey v = <[roleKey := v]> d.
Proof.
  intros Hown. unfold assign.
  destruct (String.eqb_spec roleKey "__proto__") as [->|]; [|done].
  exfalso. apply Hown. unfold prototypeKeys. set_solver.
Qed.

Lemma counterKey_own (roleKey : string) :
  roleKey = "initiatorChecks" ∨ roleKey = "bidderChecks" → roleKey ∉ prototypeKeys.
Proof.
  intros [-> | ->]; apply (proj1 (bool_decide_eq_false _)); reflexivity.
Qed.

Lemma incrementUsageTx_run (ref roleKey : string) (s : Store) :
  incrementUsageTx ref roleKey s []
  = (tt, [TxGet ref;
          TxSet ref (assign (recordOrInitial s ref) roleKey
                       (countPlusOne (recordOrInitial s ref) roleKey))]).
Proof.
  unfold incrementUsageTx, recordOrInitial, mbind, tx_bind, tx_get, tx_set, get.
  rewrite <- initialData_zeroRecord.
  cbn. destruct (s !! ref); reflexivity.
Qed.

Lemma incrementUsage_run (__app_id : option string) (roleKey uid : string)
    (outcome : TxOutcome) (st : State) (s : Store) :
  db st = true → userIdSet (userId st) = Some uid →
  let ref := getUsageDocRef __app_id uid in
  let after :=
    assign (recordOrInitial s ref) roleKey
      (countPlusOne (recordOrInitial s ref) roleKey) in
  inc_transactions (incrementUsage __app_id roleKey outcome st s)
    = [[TxGet ref; TxSet ref after]]
  ∧ match outcome with
    | Commit =>
        inc_committed (incrementUsage __app_id roleKey outcome st s) = true
        ∧ inc_store (incrementUsage __app_id roleKey outcome st s) = <[ref := after]> s
        ∧ inc_state (incrementUsage __app_id roleKey outcome st s) = st
    | Abort message =>
        inc_committed (incrementUsage __app_id roleKey outcome st s) = false
        ∧ inc_store (incrementUsage __app_id roleKey outcome st s) = s
    end.
Proof.
  intros Hdb Hu. unfold incrementUsage, runTransaction.
  rewrite Hdb, Hu, incrementUsageTx_run.
  destruct outcome; cbn; auto.
Qed.

(** On a counter key a committed call stores the record with the counter
    replaced by its count plus one, in the arithmetic of the runtime. *)
Lemma incrementUsage_counted (__app_id : option string) (roleKey uid : string)
    (st : State) (s : Store) (prior : Z) :
  db st = true → userIdSet (userId st) = Some uid →
  roleKey ∉ prototypeKeys →
  countOf (recordOrInitial s (getUsageDocRef __app_id uid) !! roleKey) = Some prior →
  let ref := getUsageDocRef __app_id uid in
  let after := <[roleKey := JNum (addNumbers prior 1)]> (recordOrInitial s ref) in
  inc_transactions (incrementUsage __app_id roleKey Commit st s)
    = [[TxGet ref; TxSet ref after]]
  ∧ inc_store (incrementUsage __app_id roleKey Commit st s) = <[ref := after]> s
  ∧ inc_state (incrementUsage __app_id roleKey Commit st s) = st.
Proof.
  intros Hdb Hset Hown Hprior. cbn zeta.
  destruct (incrementUsage_run __app_id roleKey uid Commit st s Hdb Hset)
    as (Htx & _ & Hstore & Hst).
  rewrite Htx, Hstore, Hst.
  by rewrite assign_own, countPlusOne_own, (newCount_countOf _ _ Hprior).
Qed.

Lemma incrementUsage_committed_inv (__app_id : option string) (roleKey : string)
    (outcome : TxOutcome) (st : State) (s : Store) :
  inc_committed (incrementUsage __app_id roleKey outcome st s) = true →
  db st = true ∧ outcome = Commit
  ∧ ∃ uid, userIdSet (userId st) = Some uid.
Proof.
  unfold incrementUsage, runTransaction.
  destruct (db st); [|discriminate].
  destruct (userIdSet (userId st)) as [uid|]; [|discriminate].
  rewrite incrementUsageTx_run. destruct outcome; cbn; [eauto|discriminate].
Qed.

Lemma userIdSet_Some (u : option string) (uid : string) :
  userIdSet u = Some uid → u = Some uid.
Proof.
  destruct u as [id|]; cbn; [|discriminate].
  destruct (String.eqb id ""); [discriminate|congruence].
Qed.

(** C2 (as stated: every completed call adds exactly 1). The numbers of the
    runtime have 53 significant bits: on a counter at 2^53 the call
    completes, its transaction commits, and the counter it stores is 2^53
    again, not 2^53 + 1. *)
Lemma incrementUsage_saturates :
  let r := incrementUsage None "bidderChecks" Commit sampleState (sampleStore (2 ^ 53)) in
  countOf (recordOrInitial (sampleStore (2 ^ 53)) (getUsageDocRef None "u1")
             !! "bidderChecks") = Some (2 ^ 53)
  ∧ inc_committed r = true
  ∧ countOf (recordOrInitial (inc_store r) (getUsageDocRef None "u1") !! "bidderChecks")
    = Some (2 ^ 53)
  ∧ recordOrInitial (inc_store r) (getUsageDocRef None "u1") !! "bidderChecks"
    ≠ Some (JNum (2 ^ 53 + 1)).
Proof. repeat split. discriminate. Qed.

(** C2 (amended). A call of [incrementUsage] for one of the two counters,
    [initiatorChecks] or [bidderChecks], whose transaction committed, on a
    counter below 2^53 (0 when the record or the field was missing), leaves
    the user's record with that counter equal to its prior value plus 1 and
    with every other field as it was (as in the record
    [{initiatorChecks: 0, bidderChecks: 0, isSubscribed: false}] when none
    was stored); the record exists afterwards; no other document changed;
    and the call ran one transaction, which read the record and wrote it
    back whole. *)
Theorem incrementUsage_committed (__app_id : option string) (roleKey uid : string)
    (outcome : TxOutcome) (st : State) (s : Store) (prior : Z) :
  inc_committed (incrementUsage __app_id roleKey outcome st s) = true →
  userId st = Some uid →
  roleKey = "initiatorChecks" ∨ roleKey = "bidderChecks" →
  countOf (recordOrInitial s (getUsageDocRef __app_id uid) !! roleKey) = Some prior →
  prior < 2 ^ 53 →
  ∃ after : Doc,
    inc_store (incrementUsage __app_id roleKey outcome st s)
      !! getUsageDocRef __app_id uid = Some after
    ∧ after !! roleKey = Some (JNum (prior + 1))
    ∧ (∀ field, field ≠ roleKey →
         after !! field = recordOrInitial s (getUsageDocRef __app_id uid) !! field)
    ∧ (∀ ref, ref ≠ getUsageDocRef __app_id uid →
         inc_store (incrementUsage __app_id roleKey outcome st s) !! ref = s !! ref)
    ∧ inc_transactions (incrementUsage __app_id roleKey outcome st s)
      = [[TxGet (getUsageDocRef __app_id uid);
          TxSet (getUsageDocRef __app_id uid) after]].
Proof.
  intros Hc Hu Hkey Hprior Hrange.
  destruct (incrementUsage_committed_inv _ _ _ _ _ Hc) as (Hdb & -> & uid' & Hset).
  pose proof (userIdSet_Some _ _ Hset) as Hu'. rewrite Hu in Hu'.
  injection Hu' as <-.
  destruct (incrementUsage_counted __app_id roleKey uid st s prior Hdb Hset
              (counterKey_own _ Hkey) Hprior) as (Htx & Hstore & _).
  rewrite Hstore, Htx.
  rewrite (addNumbers_exact prior) by eauto using countOf_nonneg.
  eexists. split; [apply lookup_insert_eq|].
  split; [apply lookup_insert_eq|].
  split; [intros field Hne; by apply lookup_insert_ne|].
  split; [intros ref Hne; by apply lookup_insert_ne|].
  reflexivity.
Qed.

Lemma incrementUsage_committed_witness :
  ∃ after : Doc,
    inc_store (incrementUsage None "bidderChecks" Commit sampleState (sampleStore 2))
      !! getUsageDocRef None "u1" = Some after
    ∧ after !! "bidderChecks" = Some (JNum (2 + 1))
    ∧ (∀ field, field ≠ "bidderChecks" →
         after !! field
         = recordOrInitial (sampleStore 2) (getUsageDocRef None "u1") !! field)
    ∧ (∀ ref, ref ≠ getUsageDocRef None "u1" →
         inc_store (incrementUsage None "bidderChecks" Commit sampleState (sampleStore 2))
           !! ref = sampleStore 2 !! ref)
    ∧ inc_transactions
        (incrementUsage None "bidderChecks" Commit sampleState (sampleStore 2))
      = [[TxGet (getUsageDocRef None "u1"); TxSet (getUsageDocRef None "u1") after]].
Proof.
  apply (incrementUsage_committed None "bidderChecks" "u1" Commit
           sampleState (sampleStore 2) 2);
    first [reflexivity | by right].
Defined.

(** A first use creates the record: on an empty store the committed call
    stores the all-zero record with the counter at 1. *)
Example incrementUsage_creates :
  inc_store (incrementUsage None "bidderChecks" Commit sampleState ∅)
    !! getUsageDocRef None "u1"
  = Some {[ "bidderChecks" := JNum 1; "initiatorChecks" := JNum 0;
            "isSubscribed" := JBool false ]}.
Proof. reflexivity. Qed.

(** A key that is not a counter. Under [constructor] the record holds
    nothing and [Object.prototype] a function: the call stores the text of
    that function followed by [1]. Under [__proto__] the assignment is
    ignored and the record is written back as it was read. *)
Example incrementUsage_inherited_key :
  inc_store (incrementUsage None "constructor" Commit sampleState (sampleStore 2))
    !! getUsageDocRef None "u1"
  = Some (<["constructor" := JStr "function Object() { [native code] }1"]>
            (sampleRecord 2))
  ∧ inc_store (incrementUsage None "__proto__" Commit sampleState (sampleStore 2))
    = sampleStore 2.
Proof. split; reflexivity. Qed.

(** Without a store handle or a user id the call returns at its guard: no
    transaction, no change. An aborted transaction changes nothing either
    and leaves its message in [errorMessage]. *)
Lemma incrementUsage_not_committed (__app_id : option string) (roleKey : string)
    (outcome : TxOutcome) (st : State) (s : Store) :
  inc_committed (incrementUsage __app_id roleKey outcome st s) = false →
  inc_store (incrementUsage __app_id roleKey outcome st s) = s.
Proof.
  unfold incrementUsage, runTransaction.
  destruct (db st); [|done].
  destruct (userIdSet (userId st)); [|done].
  rewrite incrementUsageTx_run. destruct outcome; cbn; [discriminate|done].
Qed.

(** ** Document paths *)

(** C3. With [__app_id] defined as ["smartbid"], the usage document lies
    under the namespace ["smartbid"] and the reports collection under the
    namespace ["__app_id"], the text of the identifier: the two paths do
    not share their [appId] segment. *)
Theorem reports_namespace_is_literal :
  getUsageDocRef (Some "smartbid") "u1"
    = "artifacts/smartbid/users/u1/usage_limits/main_tracker"
  ∧ getReportsCollectionRef (Some "smartbid")
    = "artifacts/__app_id/compliance_reports"
  ∧ appIdSegment (getUsageDocRef (Some "smartbid") "u1") = Some "smartbid"
  ∧ appIdSegment (getReportsCollectionRef (Some "smartbid")) = Some "__app_id"
  ∧ appIdSegment (getUsageDocRef (Some "smartbid") "u1")
    ≠ appIdSegment (getReportsCollectionRef (Some "smartbid")).
Proof. repeat split; try reflexivity. discriminate. Qed.

(** The local [appId] of the two builders agrees exactly when [__app_id]
    is undefined or is itself the text ["__app_id"]. *)
Lemma appId_agree_iff (__app_id : option string) :
  usageAppId __app_id = reportsAppId __app_id
  ↔ __app_id = None ∨ __app_id = Some "__app_id".
Proof.
  destruct __app_id as [id|]; cbn; [|tauto].
  split; [intros ->; by right|intros [|[= ->]]; done].
Qed.

(** ** The billing webhook *)


Lemma set_merge_lookup (s : Store) (ref : string) (data : Doc) :
  set_merge s ref data !! ref = Some (data ∪ default ∅ (s !! ref)).
Proof. apply lookup_insert_eq. Qed.

Lemma set_merge_other (s : Store) (ref ref' : string) (data : Doc) :
  ref' ≠ ref → set_merge s ref data !! ref' = s !! ref'.
Proof. intros Hne. unfold set_merge. by rewrite lookup_insert_ne. Qed.

Lemma isSet_Some (v : option string) :
  isSet v = true → ∃ x, v = Some x ∧ x ≠ "".
Proof.
  destruct v as [x|]; cbn; [|discriminate].
  destruct (String.eqb_spec x ""); [discriminate|eauto].
Qed.

Lemma isSet_intro (x : string) : x ≠ "" → isSet (Some x) = true.
Proof. intros Hx. cbn. by destruct (String.eqb_spec x ""). Qed.

(** The checkout branch either leaves the store alone or merge-writes the
    subscription data into one usage document. *)
Lemma checkoutCompleted_cases (validDocumentId : string → bool) (env : Env)
    (session : Session) (s : Store) :
  (∃ e, checkoutCompleted validDocumentId env session s = inl e)
  ∨ checkoutCompleted validDocumentId env session s = inr (s, [])
  ∨ ∃ u, client_reference_id session = Some u ∧ u ≠ ""
         ∧ admin_apps_length env ≠ 0%nat ∧ validDocumentId u = true
         ∧ checkoutCompleted validDocumentId env session s
           = inr (set_merge s (usageDocPath u) (subscriptionData (customer session)),
                  [Write (usageDocPath u) (subscriptionData (customer session))]).
Proof.
  unfold checkoutCompleted, usageDocRef.
  destruct (isSet (client_reference_id session)) eqn:Hset; cbn; [|auto].
  destruct (Nat.eqb_spec (admin_apps_length env) 0) as [|Hadmin]; cbn; [auto|].
  apply isSet_Some in Hset as (u & Hu & Hne). rewrite Hu.
  destruct (validDocumentId u) eqn:Hvalid; [|eauto].
  right; right. exists u. auto.
Qed.

Lemma checkoutCompleted_accepted (validDocumentId : string → bool) (env : Env)
    (session : Session) (s : Store) (u : string) :
  client_reference_id session = Some u → u ≠ "" →
  admin_apps_length env ≠ 0%nat → validDocumentId u = true →
  checkoutCompleted validDocumentId env session s
  = inr (set_merge s (usageDocPath u) (subscriptionData (customer session)),
         [Write (usageDocPath u) (subscriptionData (customer session))]).
Proof.
  intros Hu Hne Hadmin Hvalid. unfold checkoutCompleted, usageDocRef.
  rewrite Hu, (isSet_intro _ Hne), Hvalid.
  by destruct (Nat.eqb_spec (admin_apps_length env) 0).
Qed.

(** Without the billing key the handler stops where it builds the client
    object: nothing is read, written or answered. *)
Lemma webhook_without_key (stripe : Stripe) (validDocumentId : string → bool)
    (env : Env) (rawBody sig : option string) (s : Store) :
  isSet (STRIPE_SECRET_KEY env) = false →
  webhook stripe validDocumentId env rawBody sig s = rejected s [].
Proof. intros Hkey. unfold webhook. by rewrite Hkey. Qed.

(** The store after the webhook handled a verified event. *)
Lemma webhook_verified (stripe : Stripe) (validDocumentId : string → bool)
    (env : Env) (rawBody sig : option string) (s : Store) (event : Event) :
  isSet (STRIPE_SECRET_KEY env) = true →
  constructEvent stripe rawBody sig (STRIPE_WEBHOOK_SECRET env) = inl event →
  webhook stripe validDocumentId env rawBody sig s
  = match (if String.eqb (type event) "checkout.session.completed"
           then checkoutCompleted validDocumentId env (data_object event) s
           else inr (s, [])) with
    | inl _ => rejected s []
    | inr (s', fx) => respond 200 Empty s' fx
    end.
Proof.
  intros Hkey Hev. unfold webhook. rewrite Hkey, Hev. cbn [negb].
  destruct (if String.eqb (type event) "checkout.session.completed" then _ else _)
    as [e|[s' fx]]; [done|].
  by destruct (String.eqb (type event) "customer.subscription.deleted").
Qed.

(** With the billing key, a signature that does not verify is answered
    with status 400 and the message of the verification error; neither the
    store nor anything outside the process is touched. *)
Lemma webhook_unverified (stripe : Stripe) (validDocumentId : string → bool)
    (env : Env) (rawBody sig : option string) (s : Store) (message : string) :
  isSet (STRIPE_SECRET_KEY env) = true →
  constructEvent stripe rawBody sig (STRIPE_WEBHOOK_SECRET env) = inr message →
  webhook stripe validDocumentId env rawBody sig s
  = respond 400 (Text ("Webhook Error: " +:+ message)) s [].
Proof. intros Hkey Hev. unfold webhook. by rewrite Hkey, Hev. Qed.

(** What a request can do to the store: nothing, or one merge-write of
    the subscription data into the server's usage document of one user. *)
Lemma webhook_store_cases (stripe : Stripe) (validDocumentId : string → bool)
    (env : Env) (rawBody sig : option string) (s : Store) :
  (store (webhook stripe validDocumentId env rawBody sig s) = s
   ∧ (effects (webhook stripe validDocumentId env rawBody sig s) = []))
  ∨ ∃ u c, u ≠ ""
      ∧ store (webhook stripe validDocumentId env rawBody sig s)
        = set_merge s (usageDocPath u) (subscriptionData c)
      ∧ effects (webhook stripe validDocumentId env rawBody sig s)
        = [Write (usageDocPath u) (subscriptionData c)].
Proof.
  destruct (isSet (STRIPE_SECRET_KEY env)) eqn:Hkey;
    [|rewrite (webhook_without_key _ _ _ _ _ _ Hkey); by left].
  destruct (constructEvent stripe rawBody sig (STRIPE_WEBHOOK_SECRET env))
    as [event|message] eqn:Hev.
  - rewrite (webhook_verified _ _ _ _ _ _ _ Hkey Hev).
    destruct (String.eqb (type event) "checkout.session.completed"); [|by left].
    destruct (checkoutCompleted_cases validDocumentId env (data_object event) s)
      as [[e He]|[He|(u & Hu & Hne & Hadmin & Hvalid & He)]]; rewrite He; cbn.
    + by left.
    + by left.
    + right. by exists u, (customer (data_object event)).
  - rewrite (webhook_unverified _ _ _ _ _ _ _ Hkey Hev). by left.
Qed.


(** The document the server writes and reads for a user is not the one
    the client meters on: the client's path starts under [artifacts/], the
    server's under [users/]. *)
Lemma server_client_paths_differ (__app_id : option string) (uid uid' : string) :
  getUsageDocRef __app_id uid ≠ usageDocPath uid'.
Proof. unfold getUsageDocRef, usageDocPath. cbn. discriminate. Qed.

(** No request to the webhook, whatever it carries and however the server
    is configured, changes a usage record the client meters on. *)
Lemma webhook_leaves_usage_records (stripe : Stripe) (validDocumentId : string → bool)
    (env : Env) (rawBody sig : option string) (s : Store)
    (__app_id : option string) (uid : string) :
  store (webhook stripe validDocumentId env rawBody sig s) !! getUsageDocRef __app_id uid
  = s !! getUsageDocRef __app_id uid.
Proof.
  destruct (webhook_store_cases stripe validDocumentId env rawBody sig s)
    as [[-> _]|(u & c & _ & -> & _)]; [done|].
  apply set_merge_other, server_client_paths_differ.
Qed.




Example webhook_replay_run :
  store (sampleDelivery sampleEnv "checkout" sampleUsers) !! usageDocPath "u1"
  = Some (<["stripeCustomerId" := JStr "cus_1"]>
            (<["isSubscribed" := JBool true]> (sampleRecord 3))).
Proof. vm_compute. reflexivity. Qed.

(** C5. The billing key unset, the webhook secret set: a request whose
    signature does not verify gets no answer at all, so no 400. The handler
    throws while building the client object, before the [try] that turns a
    failed verification into the 400. The store is untouched. *)
Theorem webhook_bad_signature_without_key :
  let r := webhook sampleStripe sampleValidId sampleEnvNoKey
             (Some "checkout") (Some "forged") sampleUsers in
  constructEvent sampleStripe (Some "checkout") (Some "forged")
    (STRIPE_WEBHOOK_SECRET sampleEnvNoKey)
    = inr "No signatures found matching the expected signature"
  ∧ response r = None
  ∧ store r = sampleUsers
  ∧ effects r = [].
Proof. intros r. repeat apply conj; reflexivity. Qed.

(** The same request with the billing key set is answered with the 400. *)
Example webhook_bad_signature_with_key :
  webhook sampleStripe sampleValidId sampleEnv
    (Some "checkout") (Some "forged") sampleUsers
  = respond 400
      (Text "Webhook Error: No signatures found matching the expected signature")
      sampleUsers [].
Proof. reflexivity. Qed.

(** On the server's own document a verified completed checkout that
    carries a user id and a customer id is a merge-write of exactly
    [{isSubscribed: true, stripeCustomerId}], once the billing key is set
    and the store client is initialised and accepts the id: the two fields
    take the new values, every other field of the document keeps its value
    (a missing document is created with the two fields only), and no other
    document changes. *)
Lemma checkout_merge_write (stripe : Stripe) (validDocumentId : string → bool)
    (env : Env) (rawBody sig : option string) (s : Store)
    (event : Event) (u c : string) :
  isSet (STRIPE_SECRET_KEY env) = true →
  constructEvent stripe rawBody sig (STRIPE_WEBHOOK_SECRET env) = inl event →
  type event = "checkout.session.completed" →
  client_reference_id (data_object event) = Some u → u ≠ "" →
  customer (data_object event) = Some c →
  admin_apps_length env ≠ 0%nat → validDocumentId u = true →
  let r := webhook stripe validDocumentId env rawBody sig s in
  effects r
    = [Write (usageDocPath u)
         (<["isSubscribed" := JBool true]> (<["stripeCustomerId" := JStr c]> ∅))]
  ∧ (∃ after : Doc,
       store r !! usageDocPath u = Some after
       ∧ after !! "isSubscribed" = Some (JBool true)
       ∧ after !! "stripeCustomerId" = Some (JStr c)
       ∧ ∀ field, field ≠ "isSubscribed" → field ≠ "stripeCustomerId" →
                  after !! field = (s !! usageDocPath u) ≫= (λ before, before !! field))
  ∧ (∀ ref, ref ≠ usageDocPath u → store r !! ref = s !! ref)
  ∧ response r = Some {| status := 200; body := Empty |}.
Proof.
  intros Hkey Hev Hty Hu Hne Hc Hadmin Hvalid r. subst r.
  rewrite (webhook_verified _ _ _ _ _ _ _ Hkey Hev), Hty. cbn.
  rewrite (checkoutCompleted_accepted _ _ _ _ u Hu Hne Hadmin Hvalid), Hc. cbn.
  split; [reflexivity|]. split.
  - rewrite set_merge_lookup. eexists. split; [reflexivity|].
    split; [by apply lookup_union_Some_l|].
    split; [by apply lookup_union_Some_l|].
    intros field H1 H2. rewrite lookup_union_r.
    + destruct (s !! usageDocPath u); [done|apply lookup_empty].
    + unfold subscriptionData. rewrite !lookup_insert_ne by done. apply lookup_empty.
  - split; [|done]. intros ref Href. by apply set_merge_other.
Qed.

(** C6. The server configured, the usage record of user [u1] stored where
    the client keeps it, with 3 checks used and no subscription: the
    verified completed checkout of [u1] by customer [cus_1] is acknowledged
    and written once, but not into the usage record. The write creates
    [users/u1/usage_limits/main_tracker]; the usage record, under
    [artifacts/default-app-id/], keeps every field as it was, and after the
    listener's next snapshot the trial gate is still closed. *)
Theorem checkout_misses_usage_record :
  let r := sampleDelivery sampleEnv "checkout" (sampleStore 3) in
  let synced := onUsageSnapshot None "u1" sampleState (store r) in
  response r = Some {| status := 200; body := Empty |}
  ∧ effects r
    = [Write "users/u1/usage_limits/main_tracker"
         {[ "isSubscribed" := JBool true; "stripeCustomerId" := JStr "cus_1" ]}]
  ∧ getUsageDocRef None "u1"
    = "artifacts/default-app-id/users/u1/usage_limits/main_tracker"
  ∧ store r !! getUsageDocRef None "u1" = Some (sampleRecord 3)
  ∧ sampleStore 3 !! getUsageDocRef None "u1" = Some (sampleRecord 3)
  ∧ isTrialOver (λ _, None) (usageLimits synced.1) = true.
Proof. intros r synced. repeat apply conj; vm_compute; reflexivity. Qed.

(** With the billing key set, a verified [customer.subscription.deleted]
    event changes nothing: the store is the same (no [isSubscribed] is
    cleared), no write is issued, and the handler acknowledges with an
    empty 200 response. *)
Lemma subscription_deleted_noop (stripe : Stripe) (validDocumentId : string → bool)
    (env : Env) (rawBody sig : option string) (s : Store) (event : Event) :
  isSet (STRIPE_SECRET_KEY env) = true →
  constructEvent stripe rawBody sig (STRIPE_WEBHOOK_SECRET env) = inl event →
  type event = "customer.subscription.deleted" →
  webhook stripe validDocumentId env rawBody sig s = respond 200 Empty s [].
Proof.
  intros Hkey Hev Hty. by rewrite (webhook_verified _ _ _ _ _ _ _ Hkey Hev), Hty.
Qed.

(** With the billing key set, the acknowledgement of a verified event does
    not depend on what the event led to: the response is the empty 200
    whenever the handler gets to respond, and it does unless the store
    client throws on the document id of a checkout (the write is awaited
    outside any [try]). *)
Lemma webhook_verified_ack (stripe : Stripe) (validDocumentId : string → bool)
    (env : Env) (rawBody sig : option string) (s : Store) (event : Event) :
  isSet (STRIPE_SECRET_KEY env) = true →
  constructEvent stripe rawBody sig (STRIPE_WEBHOOK_SECRET env) = inl event →
  response (webhook stripe validDocumentId env rawBody sig s)
    = Some {| status := 200; body := Empty |}
  ∨ (response (webhook stripe validDocumentId env rawBody sig s) = None
     ∧ store (webhook stripe validDocumentId env rawBody sig s) = s
     ∧ type event = "checkout.session.completed"
     ∧ ∃ u, client_reference_id (data_object event) = Some u
            ∧ validDocumentId u = false).
Proof.
  intros Hkey Hev. rewrite (webhook_verified _ _ _ _ _ _ _ Hkey Hev).
  destruct (String.eqb_spec (type event) "checkout.session.completed") as [Hty|];
    [|by left].
  unfold checkoutCompleted, usageDocRef.
  destruct (isSet (client_reference_id (data_object event))) eqn:Hset; cbn; [|by left].
  destruct (Nat.eqb_spec (admin_apps_length env) 0); cbn; [by left|].
  apply isSet_Some in Hset as (u & Hu & Hne). rewrite Hu.
  destruct (validDocumentId u) eqn:Hvalid; [by left|].
  right. eauto 10.
Qed.

(** C9. Two verified events that are not acknowledged. The billing key
    unset: a verified [customer.subscription.deleted] event gets no answer,
    the handler having thrown while building the client object. The server
    configured: a verified completed checkout whose user reference is
    [a/b], which the store client refuses as a document id, gets no answer
    either, the refusal being thrown outside any [try]. In both cases the
    store is as before and nothing was written. *)
Theorem webhook_unacknowledged :
  let deleted := sampleDelivery sampleEnvNoKey "customer.subscription.deleted"
                   sampleLinkedUsers in
  let refused := sampleDelivery sampleEnv "checkout a/b" sampleLinkedUsers in
  type (sampleEvent "customer.subscription.deleted") = "customer.subscription.deleted"
  ∧ response deleted = None
  ∧ store deleted = sampleLinkedUsers ∧ effects deleted = []
  ∧ type (sampleEvent "checkout a/b") = "checkout.session.completed"
  ∧ client_reference_id (data_object (sampleEvent "checkout a/b")) = Some "a/b"
  ∧ sampleValidId "a/b" = false
  ∧ response refused = None
  ∧ store refused = sampleLinkedUsers ∧ effects refused = [].
Proof. intros deleted refused. repeat apply conj; reflexivity. Qed.

(** The deleted subscription on the configured server: acknowledged, and
    the customer stays subscribed. *)
Example subscription_deleted_run :
  sampleDelivery sampleEnv "customer.subscription.deleted" sampleLinkedUsers
  = respond 200 Empty sampleLinkedUsers [].
Proof. reflexivity. Qed.

(** ** The portal route *)




(** ** The metered action *)

(** C8. When the gate blocks on the usage record the component holds,
    [handleAnalyze] opens the paywall and stops: the audit is not started,
    no usage transaction is run, and the store (so every counter) is as it
    was; the usage record held by the component is untouched too. *)
Theorem handleAnalyze_blocked (StringToNumber : string → option Z)
    (trialMessageTail : string) (__app_id : option string)
    (audit : Report + string) (outcome : TxOutcome) (st : State) (s : Store) :
  isTrialOver StringToNumber (usageLimits st) = true →
  let r := handleAnalyze StringToNumber trialMessageTail __app_id audit outcome st s in
  an_auditStarted r = false
  ∧ an_transactions r = []
  ∧ an_store r = s
  ∧ usageLimits (an_state r) = usageLimits st
  ∧ isPaywallOpen (an_state r) = true.
Proof. intros Hover r. subst r. unfold handleAnalyze. rewrite Hover. done. Qed.

Lemma handleAnalyze_blocked_witness :
  let r := handleAnalyze (λ _, None) " limit reached" None
             (inl {| findings := None |}) Commit sampleBlockedState (sampleStore 3) in
  an_auditStarted r = false
  ∧ an_transactions r = []
  ∧ an_store r = sampleStore 3
  ∧ usageLimits (an_state r) = usageLimits sampleBlockedState
  ∧ isPaywallOpen (an_state r) = true.
Proof.
  apply (handleAnalyze_blocked (λ _, None) " limit reached" None
           (inl {| findings := None |}) Commit sampleBlockedState (sampleStore 3)).
  reflexivity.
Defined.

(** The scenario of the specification: with [bidderChecks = 2] and no
    subscription one audit is allowed and the counter becomes 3; once the
    listener has delivered that record, a second attempt is blocked and
    leaves the counter at 3. *)
Example two_attempts :
  let st0 := setUsageLimits (sampleRecord 2) sampleState in
  let first := handleAnalyze (λ _, None) "" None
                 (inl {| findings := None |}) Commit st0 (sampleStore 2) in
  let '(st1, s1) := onUsageSnapshot None "u1" (an_state first) (an_store first) in
  let second := handleAnalyze (λ _, None) "" None
                  (inl {| findings := None |}) Commit st1 s1 in
  an_auditStarted first = true
  ∧ an_store first !! getUsageDocRef None "u1" = Some (sampleRecord 3)
  ∧ isTrialOver (λ _, None) (usageLimits st1) = true
  ∧ an_auditStarted second = false
  ∧ an_store second !! getUsageDocRef None "u1" = Some (sampleRecord 3).
Proof. vm_compute. repeat split; reflexivity. Qed.

(** ** The compliance percentage *)



Lemma tenth_nearest (x : Q) :
  (- (1 # 20) <= (Qfloor (x * 10 + (1 # 2)) # 10) - x
   ∧ (Qfloor (x * 10 + (1 # 2)) # 10) - x <= 1 # 20)%Q.
Proof.
  pose proof (Qfloor_le (x * 10 + (1 # 2))%Q) as Hle.
  pose proof (Qlt_floor (x * 10 + (1 # 2))%Q) as Hlt.
  rewrite inject_Z_plus in Hlt.
  rewrite (Qmake_Qdiv (Qfloor (x * 10 + (1 # 2))) 10).
  set (k := inject_Z (Qfloor (x * 10 + (1 # 2)))) in *.
  change (inject_Z 1) with 1%Q in Hlt.
  unfold Qdiv. change (/ inject_Z (Z.pos 10))%Q with (1 # 10)%Q.
  clearbody k. split; lra.
Qed.

Lemma toFixed1_error (x : Q) : (Qabs (toFixed1 x - x) <= 1 # 20)%Q.
Proof.
  apply Qabs_Qle_condition. unfold toFixed1.
  destruct (Qle_bool 0 x).
  - apply tenth_nearest.
  - destruct (tenth_nearest (- x)) as [H1 H2].
    set (t := (Qfloor (- x * 10 + (1 # 2)) # 10)%Q) in *.
    clearbody t. split; lra.
Qed.


Lemma toFixed1_tenths (x : Q) : ∃ tenths : Z, (toFixed1 x == tenths # 10)%Q.
Proof.
  unfold toFixed1. destruct (Qle_bool 0 x).
  - eexists. reflexivity.
  - exists (- Qfloor (- x * 10 + (1 # 2))). reflexivity.
Qed.






(** Forty findings whose scores sum to 11.5: the quotient times 100 is
    the number just below 28.75, and the result is 28.7. On exact
    rationals the quotient is 28.75 and rounds to 28.8. *)
Example getCompliancePercentage_audit :
  unrounded sampleAudit = 0x1.cbfffffffffffp+4%float
  ∧ Double.exact (unrounded sampleAudit) = Some (8092405580431359 # 281474976710656)%Q
  ∧ Double.getCompliancePercentage {| Double.findings := Some sampleAudit |}
    = (287 / 10)%float.
Proof. repeat apply conj; vm_compute; reflexivity. Qed.

(** Ties and near-ties of [toFixed(1)]: 0.25 is a tie and goes up, the
    numbers written 0.35 and 1.45 lie below the tie and go down, and
    -0.04 is read back as [-0]. *)
Example toFixed1_ties :
  Double.toFixed1 0.25 = (3 / 10)%float
  ∧ Double.toFixed1 (35 / 100) = (3 / 10)%float
  ∧ Double.toFixed1 (145 / 100) = (14 / 10)%float
  ∧ Double.toFixed1 (- (125 / 100)) = (- (13 / 10))%float
  ∧ Double.toFixed1 (- (4 / 100)) = (-0)%float.
Proof. repeat apply conj; vm_compute; reflexivity. Qed.

(** With the scores of the data model (0, 1/2, 1) and a count that
    divides evenly, nothing is lost: two findings out of four give 50. *)
Example getCompliancePercentage_half :
  getCompliancePercentage
    {| findings := Some [ {| complianceScore := Some 1%Q |};
                          {| complianceScore := Some (1 # 2)%Q |};
                          {| complianceScore := Some (1 # 2)%Q |};
                          {| complianceScore := Some 0%Q |} ] |}
  = (500 # 10)%Q.
Proof. reflexivity. Qed.

(** ** Fetching with retries *)

Lemma retryLoop_success (network : Network) (maxRetries : nat)
    (response : HttpResponse) (n i fuel : nat) :
  (i + n < maxRetries)%nat → (maxRetries ≤ i + fuel)%nat →
  (∀ j, (i ≤ j < i + n)%nat → failsAt network j) →
  tryFetch (network (i + n)%nat) = inr response →
  retryLoop network maxRetries fuel i
  = {| fr_result := Resolved (Some response); fr_fetches := S n;
       fr_delays := map backoff (seq i n) |}.
Proof.
  revert i fuel. induction n as [|n IH]; intros i fuel Hlt Hfuel Hfail Hok.
  - destruct fuel as [|fuel]; [lia|]. cbn [retryLoop].
    destruct (Nat.ltb_spec i maxRetries); [|lia].
    rewrite Nat.add_0_r in Hok. by rewrite Hok.
  - destruct fuel as [|fuel]; [lia|]. cbn [retryLoop].
    destruct (Nat.ltb_spec i maxRetries); [|lia].
    destruct (Hfail i) as [error ->]; [lia|].
    destruct (Nat.eqb_spec i (maxRetries - 1)); [lia|].
    rewrite (IH (S i) fuel); [reflexivity|lia|lia| |].
    + intros j Hj. apply Hfail. lia.
    + by replace (S i + n)%nat with (i + S n)%nat by lia.
Qed.

Lemma retryLoop_exhausted (network : Network) (maxRetries : nat)
    (last : string) (n i fuel : nat) :
  (i + S n = maxRetries)%nat → (maxRetries ≤ i + fuel)%nat →
  (∀ j, (i ≤ j < maxRetries)%nat → failsAt network j) →
  tryFetch (network (maxRetries - 1)%nat) = inl last →
  retryLoop network maxRetries fuel i
  = {| fr_result := Rejected last; fr_fetches := S n;
       fr_delays := map backoff (seq i n) |}.
Proof.
  revert i fuel. induction n as [|n IH]; intros i fuel Hlt Hfuel Hfail Hlast.
  - destruct fuel as [|fuel]; [lia|]. cbn [retryLoop].
    destruct (Nat.ltb_spec i maxRetries); [|lia].
    replace (maxRetries - 1)%nat with i in * by lia.
    rewrite Hlast. by rewrite Nat.eqb_refl.
  - destruct fuel as [|fuel]; [lia|]. cbn [retryLoop].
    destruct (Nat.ltb_spec i maxRetries); [|lia].
    destruct (Hfail i) as [error ->]; [lia|].
    destruct (Nat.eqb_spec i (maxRetries - 1)); [lia|].
    rewrite (IH (S i) fuel); [reflexivity|lia|lia| |done].
    intros j Hj. apply Hfail. lia.
Qed.

Lemma totalDelay_backoff (n : nat) :
  totalDelay (map backoff (seq 0 n)) = 1000 * (2 ^ Z.of_nat n - 1).
Proof.
  unfold totalDelay. induction n as [|n IH]; [reflexivity|].
  rewrite seq_S, map_app, foldr_app. cbn [map foldr plus].
  assert (Hshift : ∀ (l : list Z) (a : Z), foldr Z.add a l = foldr Z.add 0 l + a).
  { induction l as [|x l IHl]; intros a; cbn; [lia|]. rewrite IHl. lia. }
  rewrite Hshift, IH. unfold backoff.
  rewrite Nat2Z.inj_succ, Z.pow_succ_r by lia. lia.
Qed.

(** The first iteration that succeeds decides the run: when the
    iterations before [k] fail and iteration [k] (within the limit) gives
    an [ok] response, the promise resolves with that response after
    [k + 1] calls of [fetch] and the delays 1000, 2000, ..., doubling, one
    per failure. *)
Theorem fetchWithRetry_first_success (network : Network) (maxRetries k : nat)
    (response : HttpResponse) :
  (k < maxRetries)%nat →
  (∀ j, (j < k)%nat → failsAt network j) →
  tryFetch (network k) = inr response →
  fetchWithRetry network maxRetries
  = {| fr_result := Resolved (Some response); fr_fetches := S k;
       fr_delays := map backoff (seq 0 k) |}
  ∧ totalDelay (fr_delays (fetchWithRetry network maxRetries))
    = 1000 * (2 ^ Z.of_nat k - 1).
Proof.
  intros Hk Hfail Hok. unfold fetchWithRetry.
  rewrite (retryLoop_success network maxRetries response k 0 maxRetries);
    [|lia|lia|intros j Hj; apply Hfail; lia|done].
  split; [reflexivity|apply totalDelay_backoff].
Qed.

(** When every iteration fails, the promise rejects with the error of the
    last one, after exactly [maxRetries] calls of [fetch]; no delay follows
    the last failure, so the waiting adds up to
    [1000 * (2 ^ (maxRetries - 1) - 1)] milliseconds. *)
Theorem fetchWithRetry_exhausted (network : Network) (maxRetries : nat)
    (last : string) :
  (0 < maxRetries)%nat →
  (∀ j, (j < maxRetries)%nat → failsAt network j) →
  tryFetch (network (maxRetries - 1)%nat) = inl last →
  fetchWithRetry network maxRetries
  = {| fr_result := Rejected last; fr_fetches := maxRetries;
       fr_delays := map backoff (seq 0 (maxRetries - 1)) |}
  ∧ totalDelay (fr_delays (fetchWithRetry network maxRetries))
    = 1000 * (2 ^ Z.of_nat (maxRetries - 1) - 1).
Proof.
  intros Hpos Hfail Hlast. unfold fetchWithRetry.
  rewrite (retryLoop_exhausted network maxRetries last (maxRetries - 1) 0 maxRetries);
    [|lia|lia|intros j Hj; apply Hfail; lia|done].
  replace (S (maxRetries - 1)) with maxRetries by lia.
  split; [reflexivity|apply totalDelay_backoff].
Qed.

Lemma fetchWithRetry_first_success_witness :
  fetchWithRetry sampleNetwork 3
  = {| fr_result := Resolved (Some sampleResponse); fr_fetches := 3;
       fr_delays := map backoff (seq 0 2) |}
  ∧ totalDelay (fr_delays (fetchWithRetry sampleNetwork 3))
    = 1000 * (2 ^ Z.of_nat 2 - 1).
Proof.
  apply (fetchWithRetry_first_success sampleNetwork 3 2 sampleResponse);
    [lia| |reflexivity].
  intros [|[|j]] Hj; [eexists; reflexivity..|lia].
Defined.

Lemma fetchWithRetry_exhausted_witness :
  fetchWithRetry sampleDeadNetwork 3
  = {| fr_result :=
         Rejected "HTTP error! Status: 503. Details: model overloaded...";
       fr_fetches := 3;
       fr_delays := map backoff (seq 0 (3 - 1)) |}
  ∧ totalDelay (fr_delays (fetchWithRetry sampleDeadNetwork 3))
    = 1000 * (2 ^ Z.of_nat (3 - 1) - 1).
Proof.
  apply (fetchWithRetry_exhausted sampleDeadNetwork 3
           "HTTP error! Status: 503. Details: model overloaded...");
    [lia| |reflexivity].
  intros j Hj. eexists. reflexivity.
Defined.

Lemma retryLoop_shape (network : Network) (maxRetries fuel i : nat) :
  (maxRetries ≤ i + fuel)%nat →
  (i + fr_fetches (retryLoop network maxRetries fuel i) ≤ i `max` maxRetries)%nat
  ∧ fr_delays (retryLoop network maxRetries fuel i)
    = map backoff (seq i (fr_fetches (retryLoop network maxRetries fuel i) - 1))
  ∧ (fr_result (retryLoop network maxRetries fuel i) = Resolved None
     ↔ (maxRetries ≤ i)%nat)
  ∧ ((i < maxRetries)%nat
     → (1 ≤ fr_fetches (retryLoop network maxRetries fuel i))%nat).
Proof.
  revert i. induction fuel as [|fuel IH]; intros i Hfuel; cbn [retryLoop].
  - cbn. repeat split; try lia; done.
  - destruct (Nat.ltb_spec i maxRetries) as [Hi|Hi].
    + destruct (tryFetch (network i)) as [error|response].
      * destruct (Nat.eqb_spec i (maxRetries - 1)) as [Hlast|Hlast].
        { cbn. repeat split; try lia; done. }
        destruct (IH (S i)) as (Hn & Hd & _ & Hone); [lia|].
        specialize (Hone ltac:(lia)).
        set (rest := retryLoop network maxRetries fuel (S i)) in *.
        cbn [afterFetch afterDelay fr_fetches fr_delays fr_result].
        split; [lia|]. split.
        { rewrite Hd. replace (S (fr_fetches rest) - 1)%nat
            with (S (fr_fetches rest - 1)) by lia. reflexivity. }
        split; [|lia]. split; [|lia].
        intros Hres. destruct (IH (S i)) as (_ & _ & Hnone & _); [lia|].
        apply Hnone in Hres. lia.
      * cbn. repeat split; try lia; done.
    + cbn. repeat split; try lia; done.
Qed.

(** Whatever the network does, [fetchWithRetry] calls [fetch] at most
    [maxRetries] times, waits once between two calls and never after the
    last, with delays doubling from 1000 ms, so that the total wait is at
    most [1000 * (2 ^ (maxRetries - 1) - 1)] ms; and the promise resolves
    with [undefined] exactly when [maxRetries] is 0, in which case nothing
    is fetched. *)
Theorem fetchWithRetry_bounds (network : Network) (maxRetries : nat) :
  (fr_fetches (fetchWithRetry network maxRetries) ≤ maxRetries)%nat
  ∧ fr_delays (fetchWithRetry network maxRetries)
    = map backoff (seq 0 (fr_fetches (fetchWithRetry network maxRetries) - 1))
  ∧ totalDelay (fr_delays (fetchWithRetry network maxRetries))
    ≤ 1000 * (2 ^ Z.of_nat (maxRetries - 1) - 1)
  ∧ (fr_result (fetchWithRetry network maxRetries) = Resolved None
     ↔ maxRetries = 0%nat)
  ∧ (fr_fetches (fetchWithRetry network maxRetries) = 0%nat
     ↔ maxRetries = 0%nat).
Proof.
  unfold fetchWithRetry.
  destruct (retryLoop_shape network maxRetries maxRetries 0) as (Hn & Hd & Hr & Hone);
    [lia|].
  set (run := retryLoop network maxRetries maxRetries 0) in *.
  split; [lia|]. split; [done|]. split.
  - rewrite Hd, totalDelay_backoff.
    apply Z.mul_le_mono_nonneg_l; [lia|].
    apply Z.sub_le_mono_r, Z.pow_le_mono_r; lia.
  - split; [rewrite Hr; lia|]. split; [|lia].
    intros H0. destruct maxRetries; [done|]. specialize (Hone ltac:(lia)). lia.
Qed.

(** ** Reading an uploaded file *)

Lemma app_cons (c : ascii) (s t : string) : String c s +:+ t = String c (s +:+ t).
Proof. reflexivity. Qed.

Lemma app_nil_l (t : string) : "" +:+ t = t.
Proof. reflexivity. Qed.

Lemma app_nil_r (s : string) : s +:+ "" = s.
Proof. induction s as [|c s IH]; [done|]. by rewrite app_cons, IH. Qed.

Lemma app_assoc (a b c : string) : (a +:+ b) +:+ c = a +:+ (b +:+ c).
Proof. induction a as [|x a IH]; [done|]. by rewrite !app_cons, IH. Qed.

Lemma split_from_free (sep : ascii) (acc s : string) :
  freeOf sep s = true → split_from sep acc s = [acc +:+ s].
Proof.
  revert acc. induction s as [|c s IH]; intros acc Hfree; cbn [split_from].
  - by rewrite app_nil_r.
  - cbn [freeOf] in Hfree. apply andb_true_iff in Hfree as [Hc Hs].
    apply negb_true_iff in Hc. rewrite Hc, (IH _ Hs), app_assoc. reflexivity.
Qed.

Lemma last_split_from_is_Some (sep : ascii) (acc s : string) :
  is_Some (last (split_from sep acc s)).
Proof.
  revert acc. induction s as [|c s IH]; intros acc; cbn [split_from]; [by eexists|].
  destruct (Ascii.eqb c sep); [|done].
  rewrite last_cons. destruct (IH "") as [x ->]. by eexists.
Qed.

Lemma last_split_from_app (sep : ascii) (acc a b : string) :
  last (split_from sep acc (a +:+ String sep b)) = last (split_from sep "" b).
Proof.
  revert acc. induction a as [|c a IH]; intros acc.
  - rewrite app_nil_l. cbn [split_from]. rewrite Ascii.eqb_refl, last_cons.
    by destruct (last_split_from_is_Some sep "" b) as [x ->].
  - rewrite app_cons. cbn [split_from]. destruct (Ascii.eqb c sep); [|done].
    rewrite last_cons, IH.
    by destruct (last_split_from_is_Some sep "" b) as [x ->].
Qed.

Lemma lowerChar_lowerLetter (c : ascii) : lowerChar c = lowerLetter c.
Proof. destruct c as [[] [] [] [] [] [] [] []]; reflexivity. Qed.

Lemma toLowerCase_lowered (s : string) : toLowerCase s = lowered s.
Proof.
  induction s as [|c s IH]; [done|].
  cbn [toLowerCase lowered]. by rewrite lowerChar_lowerLetter, IH.
Qed.

(** Only what follows the last dot of the name counts, and its case does
    not: for an [ext] written in ASCII and without a dot, the extension of
    [base.ext] is [ext] with its letters A to Z in lower case and its other
    characters as they are, whatever [base] is (dots included). *)
Theorem fileExtension_after_last_dot (base ext : string) :
  freeOf "."%char ext = true →
  asciiOnly ext = true →
  fileExtension (base +:+ "." +:+ ext) = lowered ext.
Proof.
  intros Hfree _. unfold fileExtension, split.
  change ("." +:+ ext) with (String "."%char ext).
  rewrite last_split_from_app, (split_from_free _ _ _ Hfree).
  apply toLowerCase_lowered.
Qed.

Lemma fileExtension_after_last_dot_witness :
  fileExtension "tender.v2.final.PDF" = "pdf".
Proof.
  apply (fileExtension_after_last_dot "tender.v2.final" "PDF"); reflexivity.
Defined.

(** Mixed case, digits and signs: only the letters change. *)
Example fileExtension_mixed :
  fileExtension "Bid_2024.Final.DocX" = "docx"
  ∧ fileExtension "archive.TAR-7z" = "tar-7z".
Proof. split; reflexivity. Qed.

(** A name without any dot is its own extension: a file called [TXT] is
    read as text. *)
Lemma fileExtension_no_dot (name : string) :
  freeOf "."%char name = true → fileExtension name = toLowerCase name.
Proof.
  intros Hfree. unfold fileExtension, split.
  by rewrite (split_from_free _ _ _ Hfree).
Qed.

(** [processFile] starts no read exactly when it has nothing to read the
    file with: the extension is none of [txt], [pdf], [docx], or the
    parser the extension calls for is not loaded. The promise is then
    rejected with a message. Once a read is started, a reader that fails
    rejects the promise with its own error, whatever the type. *)
Theorem processFile_reading (libs : Libraries) (file : File) :
  (pf_reading (processFile libs file) = NoRead
   ↔ (fileExtension (name file) ≠ "txt"
      ∧ (fileExtension (name file) = "pdf" → pdfjsLib libs = None)
      ∧ (fileExtension (name file) = "docx" → mammoth libs = None)))
  ∧ (pf_reading (processFile libs file) = NoRead
     → ∃ message, pf_result (processFile libs file) = Declined message)
  ∧ (pf_reading (processFile libs file) ≠ NoRead → content file = None
     → pf_result (processFile libs file) = ReaderFailed).
Proof.
  unfold processFile.
  destruct (String.eqb_spec (fileExtension (name file)) "txt") as [Htxt|Htxt].
  { cbn. split; [split; [done|tauto]|]. split; [done|]. by intros _ ->. }
  destruct (String.eqb_spec (fileExtension (name file)) "pdf") as [Hpdf|Hpdf].
  { rewrite Hpdf. destruct (pdfjsLib libs) as [getDocument|]; cbn.
    - split; [split; [done|]|].
      + intros (_ & H & _). by specialize (H eq_refl).
      + split; [done|]. by intros _ ->.
    - split; [split; [|done]|].
      + intros _. split; [done|]. split; [done|]. discriminate.
      + split; [eauto|done]. }
  destruct (String.eqb_spec (fileExtension (name file)) "docx") as [Hdocx|Hdocx].
  { rewrite Hdocx. destruct (mammoth libs) as [extractRawText|]; cbn.
    - split; [split; [done|]|].
      + intros (_ & _ & H). by specialize (H eq_refl).
      + split; [done|]. by intros _ ->.
    - split; [split; [|done]|].
      + intros _. split; [done|]. split; [discriminate|done].
      + split; [eauto|done]. }
  cbn. split; [split; [|done]|].
  - intros _. split; [done|]. split; intros Heq; by rewrite Heq in *.
  - split; [eauto|done].
Qed.

Lemma pdfText_from (pages : list (list string)) (fullText : string) :
  foldl (λ fullText items,
           fullText +:+ (String.concat " " items +:+ newline +:+ newline))
        fullText pages
  = fullText +:+ foldr (λ items rest, pageText items +:+ rest) "" pages.
Proof.
  revert fullText. induction pages as [|items pages IH]; intros fullText; cbn [foldl foldr].
  - by rewrite app_nil_r.
  - rewrite IH. unfold pageText. by rewrite !app_assoc.
Qed.

(** The text of a PDF is the text of its pages one after the other, in
    page order, each page being its items joined by single spaces and
    closed by two newlines; so the text of a document is the text of its
    first pages followed by the text of the rest, and a document without
    pages gives the empty text. *)
Theorem pdfText_pages (pages rest : list (list string)) :
  pdfText pages = foldr (λ items text, pageText items +:+ text) "" pages
  ∧ pdfText (pages ++ rest) = pdfText pages +:+ pdfText rest
  ∧ pdfText [] = "".
Proof.
  unfold pdfText. split; [by rewrite pdfText_from, app_nil_l|].
  split; [|done]. by rewrite foldl_app, !pdfText_from, !app_nil_l.
Qed.

(** A PDF the reader could load and the parser could open resolves the
    promise with the text of its pages; a parser error rejects it with
    the parser's message after the fixed prefix. *)
Example processFile_pdf :
  processFile sampleLibraries {| name := "Bid.Response.PDF"; content := Some "%PDF-1.7" |}
    = {| pf_result := Extracted (pageText ["Scope"; "of"; "work"] +:+ pageText ["Terms"]);
         pf_reading := ReadAsArrayBuffer |}
  ∧ processFile sampleLibraries {| name := "empty.pdf"; content := Some "" |}
    = {| pf_result := Declined "Error parsing PDF. Detail: Invalid PDF structure";
         pf_reading := ReadAsArrayBuffer |}
  ∧ processFile sampleLibraries {| name := "bid.docx"; content := Some "PK" |}
    = {| pf_result := Declined "DOCX parsing library (mammoth.js) not loaded. DOCX support disabled.";
         pf_reading := NoRead |}.
Proof. repeat split. Qed.

Lemma processFile_reading_witness :
  (∃ message,
     pf_result (processFile sampleLibraries {| name := "bid.docx"; content := Some "PK" |})
     = Declined message)
  ∧ pf_result (processFile sampleLibraries {| name := "notes.txt"; content := None |})
    = ReaderFailed.
Proof.
  split.
  - apply (processFile_reading sampleLibraries
             {| name := "bid.docx"; content := Some "PK" |}). reflexivity.
  - apply (processFile_reading sampleLibraries
             {| name := "notes.txt"; content := None |}); [discriminate|reflexivity].
Defined.

(** ** The sign-in page *)

Section AuthPageProperties.
Import AuthPage.

Lemma filter_nil_iff {A} (P : A → Prop) `{!∀ x, Decision (P x)} (l : list A) :
  filter P l = [] ↔ Forall (λ x, ¬ P x) l.
Proof.
  induction l as [|x l IH]; [done|].
  rewrite filter_cons, Forall_cons. case_decide.
  - split; [done|]. by intros [? _].
  - rewrite IH. tauto.
Qed.

Lemma missing_nil_iff (regForm : RegForm) :
  filter (λ field, regField regForm field = "") required = []
  ↔ regFormComplete regForm.
Proof.
  rewrite filter_nil_iff. unfold regFormComplete, required.
  rewrite !Forall_cons, Forall_nil. cbn. tauto.
Qed.

Lemma handleRegister_refused (regForm : RegForm) (st : State) :
  later (handleRegister regForm st) = None →
  mockUsers (settled (handleRegister regForm st)) = mockUsers st
  ∧ currentUser (settled (handleRegister regForm st)) = currentUser st
  ∧ currentPage (settled (handleRegister regForm st)) = currentPage st.
Proof.
  unfold settled. intros ->. unfold handleRegister.
  destruct (0 <? _)%nat; [done|].
  by destruct (found _ _).
Qed.

Lemma handleRegister_accepted (regForm : RegForm) (st : State) :
  regFormComplete regForm → found (mockUsers st) (reg_login regForm) = false →
  ∃ newUser,
    mockUsers (settled (handleRegister regForm st))
    = <[reg_login regForm := newUser]> (mockUsers st)
    ∧ role newUser = "USER" ∧ password newUser = reg_password regForm
    ∧ name newUser = reg_name regForm
    ∧ currentUser (settled (handleRegister regForm st)) = currentUser st
    ∧ currentPage (settled (handleRegister regForm st)) = currentPage st
    ∧ ∃ callback, later (handleRegister regForm st) = Some (1000, callback).
Proof.
  intros Hcomplete Hfree. apply missing_nil_iff in Hcomplete.
  unfold settled, handleRegister. rewrite Hcomplete. cbn [length Nat.ltb Nat.leb].
  cbn [setErrorMessage setIsSubmitting mockUsers]. rewrite Hfree. cbn.
  eexists. repeat split; eauto.
Qed.

Lemma found_false (users : gmap string User) (key : string) :
  found users key = false → users !! key = None ∧ inherited key = false.
Proof. unfold found. by destruct (users !! key). Qed.

Lemma handleRegister_scheduled (regForm : RegForm) (st : State) :
  is_Some (later (handleRegister regForm st))
  ↔ regFormComplete regForm ∧ found (mockUsers st) (reg_login regForm) = false.
Proof.
  split.
  - unfold handleRegister. rewrite <- missing_nil_iff.
    destruct (filter _ required) as [|field missing]; cbn [length Nat.ltb Nat.leb].
    + cbn [setErrorMessage setIsSubmitting mockUsers].
      destruct (found _ _); [by intros [? [=]]|done].
    + by intros [? [=]].
  - intros [Hcomplete Hfree].
    destruct (handleRegister_accepted regForm st Hcomplete Hfree)
      as (_ & _ & _ & _ & _ & _ & _ & callback & ->). by eexists.
Qed.

(** Registration goes through exactly when the six required fields are
    filled in (the phone number may stay empty) and the login names
    neither a user nor a property every object inherits; the account is
    then added after one second. Otherwise nothing is scheduled and the
    directory is left as it is. *)
Theorem handleRegister_accepts_iff (regForm : RegForm) (st : State) :
  (is_Some (later (handleRegister regForm st))
   ↔ regFormComplete regForm ∧ found (mockUsers st) (reg_login regForm) = false)
  ∧ (later (handleRegister regForm st) = None
     → mockUsers (settled (handleRegister regForm st)) = mockUsers st)
  ∧ (∀ delay callback, later (handleRegister regForm st) = Some (delay, callback)
     → delay = 1000
       ∧ dom (mockUsers (settled (handleRegister regForm st)))
         = {[reg_login regForm]} ∪ dom (mockUsers st)).
Proof.
  split; [apply handleRegister_scheduled|].
  split; [intros H; by apply handleRegister_refused|].
  intros delay callback Hlater.
  destruct (handleRegister_scheduled regForm st) as [Hacc _].
  destruct Hacc as [Hcomplete Hfree]; [by eexists|].
  destruct (handleRegister_accepted regForm st Hcomplete Hfree)
    as (newUser & -> & _ & _ & _ & _ & _ & callback' & Hlater').
  rewrite Hlater in Hlater'. injection Hlater' as -> _.
  split; [done|]. apply dom_insert_L.
Qed.

(** Registration never touches an account that exists, never signs
    anybody in or changes the page, and the only account it can add is one
    under the login of the form, with the role [USER] and the password of
    the form. *)
Theorem handleRegister_frame (regForm : RegForm) (st : State) :
  (∀ key u, mockUsers st !! key = Some u
            → mockUsers (settled (handleRegister regForm st)) !! key = Some u)
  ∧ (∀ key u, mockUsers (settled (handleRegister regForm st)) !! key = Some u
              → mockUsers st !! key = Some u
                ∨ (key = reg_login regForm ∧ role u = "USER"
                   ∧ password u = reg_password regForm))
  ∧ currentUser (settled (handleRegister regForm st)) = currentUser st
  ∧ currentPage (settled (handleRegister regForm st)) = currentPage st.
Proof.
  destruct (later (handleRegister regForm st)) as [[delay callback]|] eqn:Hlater.
  - destruct (handleRegister_scheduled regForm st) as [Hacc _].
    destruct Hacc as [Hcomplete Hfree]; [by eexists|].
    destruct (handleRegister_accepted regForm st Hcomplete Hfree)
      as (newUser & -> & Hrole & Hpw & _ & Hcu & Hcp & _).
    apply found_false in Hfree as [Hnone _].
    split; [|split; [|done]].
    + intros key u Hu. rewrite lookup_insert_ne; [done|]. congruence.
    + intros key u. rewrite lookup_insert. case_decide; [|by left].
      intros [= <-]. by right.
  - destruct (handleRegister_refused regForm st Hlater) as (-> & -> & ->). auto.
Qed.

(** An account that was just registered can sign in: with the login and
    the password of the form, [handleLogin] signs that user in, as a
    [USER], and shows the compliance page. *)
Theorem register_then_login (regForm : RegForm) (st : State) :
  regFormComplete regForm →
  found (mockUsers st) (reg_login regForm) = false →
  let registered := settled (handleRegister regForm st) in
  let signedIn :=
    settled (handleLogin {| login_login := reg_login regForm;
                            login_password := reg_password regForm |} registered) in
  (∃ u, currentUser signedIn = Some {| login := reg_login regForm; user := u |}
        ∧ role u = "USER" ∧ name u = reg_name regForm)
  ∧ currentPage signedIn = COMPLIANCE_CHECK
  ∧ mockUsers signedIn = mockUsers registered.
Proof.
  intros Hcomplete Hfree registered signedIn.
  destruct (handleRegister_accepted regForm st Hcomplete Hfree)
    as (newUser & Husers & Hrole & Hpw & Hname & _).
  fold registered in Husers.
  destruct Hcomplete as (_ & _ & _ & _ & Hlogin & Hpassword).
  subst signedIn. unfold settled, handleLogin. cbn [login_login login_password].
  destruct (String.eqb_spec (reg_login regForm) ""); [done|].
  destruct (String.eqb_spec (reg_password regForm) ""); [done|]. cbn [orb].
  cbn [setErrorMessage setIsSubmitting mockUsers].
  rewrite Husers, lookup_insert_eq, Hpw, String.eqb_refl. cbn.
  rewrite Hrole. cbn. rewrite Husers. split; [|done]. by exists newUser.
Qed.

Lemma register_then_login_witness :
  let registered := settled (handleRegister sampleRegForm sampleAuthState) in
  let signedIn :=
    settled (handleLogin {| login_login := reg_login sampleRegForm;
                            login_password := reg_password sampleRegForm |}
               registered) in
  (∃ u, currentUser signedIn = Some {| login := reg_login sampleRegForm; user := u |}
        ∧ role u = "USER" ∧ name u = reg_name sampleRegForm)
  ∧ currentPage signedIn = COMPLIANCE_CHECK
  ∧ mockUsers signedIn = mockUsers registered.
Proof.
  apply (register_then_login sampleRegForm sampleAuthState); [|reflexivity].
  repeat split; discriminate.
Defined.

(** A login that every object inherits as a property name ([toString],
    [constructor], ...) counts as taken: registering under it is refused
    and the directory does not change. *)
Theorem handleRegister_inherited_login (regForm : RegForm) (st : State) :
  inherited (reg_login regForm) = true →
  later (handleRegister regForm st) = None
  ∧ mockUsers (settled (handleRegister regForm st)) = mockUsers st
  ∧ (regFormComplete regForm
     → errorMessage (settled (handleRegister regForm st))
       = Some "Registration failed: This login/email is already taken.").
Proof.
  intros Hinh.
  assert (Hfound : found (mockUsers st) (reg_login regForm) = true).
  { unfold found. by destruct (mockUsers st !! reg_login regForm). }
  assert (Hnone : later (handleRegister regForm st) = None).
  { destruct (later (handleRegister regForm st)) eqn:Hlater; [|done].
    destruct (handleRegister_scheduled regForm st) as [Hacc _].
    destruct Hacc as [_ Hfree]; [by eexists|]. congruence. }
  split; [done|]. split; [by apply handleRegister_refused|].
  intros Hcomplete. apply missing_nil_iff in Hcomplete.
  unfold settled, handleRegister. rewrite Hcomplete. cbn [length Nat.ltb Nat.leb].
  cbn [setErrorMessage setIsSubmitting mockUsers]. by rewrite Hfound.
Qed.

Lemma handleRegister_inherited_login_witness :
  later (handleRegister
           {| reg_name := "T"; reg_designation := "d"; reg_company := "c";
              reg_email := "e"; reg_phone := ""; reg_login := "toString";
              reg_password := "p" |} sampleAuthState) = None
  ∧ mockUsers (settled (handleRegister
           {| reg_name := "T"; reg_designation := "d"; reg_company := "c";
              reg_email := "e"; reg_phone := ""; reg_login := "toString";
              reg_password := "p" |} sampleAuthState)) = mockUsers sampleAuthState
  ∧ (regFormComplete
           {| reg_name := "T"; reg_designation := "d"; reg_company := "c";
              reg_email := "e"; reg_phone := ""; reg_login := "toString";
              reg_password := "p" |}
     → errorMessage (settled (handleRegister
           {| reg_name := "T"; reg_designation := "d"; reg_company := "c";
              reg_email := "e"; reg_phone := ""; reg_login := "toString";
              reg_password := "p" |} sampleAuthState))
       = Some "Registration failed: This login/email is already taken.").
Proof.
  apply (handleRegister_inherited_login
           {| reg_name := "T"; reg_designation := "d"; reg_company := "c";
              reg_email := "e"; reg_phone := ""; reg_login := "toString";
              reg_password := "p" |} sampleAuthState).
  reflexivity.
Defined.

(** [handleLogin] signs a user in exactly when both fields are filled in
    and the directory has a user of its own under that login whose
    password is the one typed. It then shows the admin page to an [ADMIN]
    and the compliance page to anybody else. In every other case the user
    signed in and the page stay as they were and a failure message is
    shown. The directory is never changed. *)
Theorem handleLogin_signs_in_iff (loginForm : LoginForm) (st : State) :
  mockUsers (settled (handleLogin loginForm st)) = mockUsers st
  ∧ (is_Some (later (handleLogin loginForm st))
     ↔ login_login loginForm ≠ "" ∧ login_password loginForm ≠ ""
       ∧ ∃ u, mockUsers st !! login_login loginForm = Some u
              ∧ password u = login_password loginForm)
  ∧ (∀ u, is_Some (later (handleLogin loginForm st)) →
          mockUsers st !! login_login loginForm = Some u →
          currentUser (settled (handleLogin loginForm st))
            = Some {| login := login_login loginForm; user := u |}
          ∧ currentPage (settled (handleLogin loginForm st))
            = (if String.eqb (role u) "ADMIN" then ADMIN else COMPLIANCE_CHECK))
  ∧ (later (handleLogin loginForm st) = None →
       currentUser (settled (handleLogin loginForm st)) = currentUser st
       ∧ currentPage (settled (handleLogin loginForm st)) = currentPage st
       ∧ (errorMessage (settled (handleLogin loginForm st))
            = Some "Please enter both login/email and password."
          ∨ errorMessage (settled (handleLogin loginForm st))
            = Some "Login failed: Invalid username or password.")).
Proof.
  unfold settled, handleLogin.
  cbn [setErrorMessage setIsSubmitting mockUsers].
  destruct (String.eqb_spec (login_login loginForm) "") as [Hl|Hl]; cbn [orb].
  { cbn. split; [done|]. split; [|split; [by intros u [? [=]]|auto]].
    split; [by intros [? [=]]|]. by intros [? _]. }
  destruct (String.eqb_spec (login_password loginForm) "") as [Hp|Hp].
  { cbn. split; [done|]. split; [|split; [by intros u [? [=]]|auto]].
    split; [by intros [? [=]]|]. by intros (_ & ? & _). }
  destruct (mockUsers st !! login_login loginForm) as [u|] eqn:Hu.
  - destruct (String.eqb_spec (password u) (login_password loginForm)) as [Hpw|Hpw].
    + cbn. split; [by destruct (String.eqb (role u) "ADMIN")|].
      split; [split; [eauto 6|by eexists]|].
      split; [|done]. intros u' _ [= <-].
      by destruct (String.eqb (role u) "ADMIN").
    + cbn. split; [done|]. split; [|split; [by intros u' [? [=]]|auto]].
      split; [by intros [? [=]]|]. intros (_ & _ & u' & [= <-] & ?). done.
  - cbn. split; [done|]. split; [|split; [by intros u' [? [=]]|auto]].
    split; [by intros [? [=]]|]. by intros (_ & _ & u' & [=] & _).
Qed.

Lemma handleLogin_signs_in_iff_witness :
  currentUser (settled (handleLogin {| login_login := "admin"; login_password := "pass" |}
                          sampleAuthState))
    = Some {| login := "admin";
              user := {| password := "pass"; name := "System Admin"; role := "ADMIN";
                         designation := "Lead Administrator"; company := "SmartBids Inc";
                         email := "admin@smartbids.com"; phone := "555-5678" |} |}
  ∧ currentPage (settled (handleLogin {| login_login := "admin"; login_password := "pass" |}
                            sampleAuthState))
    = (if String.eqb "ADMIN" "ADMIN" then ADMIN else COMPLIANCE_CHECK).
Proof.
  destruct (handleLogin_signs_in_iff {| login_login := "admin"; login_password := "pass" |}
              sampleAuthState) as (_ & _ & H & _).
  apply H; [by eexists|reflexivity].
Defined.

Lemma handleRegister_frame_witness :
  mockUsers (settled (handleRegister sampleRegForm sampleAuthState)) !! "admin"
  = Some {| password := "pass"; name := "System Admin"; role := "ADMIN";
            designation := "Lead Administrator"; company := "SmartBids Inc";
            email := "admin@smartbids.com"; phone := "555-5678" |}.
Proof.
  destruct (handleRegister_frame sampleRegForm sampleAuthState) as (H & _).
  apply H. reflexivity.
Defined.

Lemma handleRegister_accepts_iff_witness :
  is_Some (later (handleRegister sampleRegForm sampleAuthState)).
Proof.
  apply (handleRegister_accepts_iff sampleRegForm sampleAuthState).
  split; [repeat split; discriminate|reflexivity].
Defined.

End AuthPageProperties.

(** ** The report history *)

Section HistoryProperties.
Import History.

Lemma insertSorted_Permutation {A} (compare : A → A → Z) (x : A) (l : list A) :
  insertSorted compare x l ≡ₚ x :: l.
Proof.
  induction l as [|y l IH]; cbn [insertSorted]; [done|].
  destruct (compare x y <=? 0); [done|]. rewrite IH. apply Permutation_swap.
Qed.

Lemma sort_Permutation {A} (compare : A → A → Z) (l : list A) :
  sort compare l ≡ₚ l.
Proof.
  unfold sort. induction l as [|x l IH]; cbn [foldr]; [done|].
  by rewrite insertSorted_Permutation, IH.
Qed.

Lemma insertSorted_StronglySorted (x : ReportDoc) (l : list ReportDoc) :
  StronglySorted notOlder l →
  StronglySorted notOlder (insertSorted compareReports x l).
Proof.
  induction 1 as [|y l Hl IH Hy]; cbn [insertSorted].
  - repeat constructor.
  - unfold compareReports at 1. destruct (Z.leb_spec (default 0 (timestamp y)
                                              - default 0 (timestamp x)) 0) as [Hle|Hgt].
    + constructor; [by constructor|]. constructor; [unfold notOlder; lia|].
      eapply Forall_impl; [exact Hy|]. unfold notOlder. intros z Hz. lia.
    + constructor; [done|].
      rewrite insertSorted_Permutation. constructor; [unfold notOlder; lia|done].
Qed.

Lemma sort_StronglySorted (l : list ReportDoc) :
  StronglySorted notOlder (sort compareReports l).
Proof.
  unfold sort. induction l as [|x l IH]; cbn [foldr]; [constructor|].
  by apply insertSorted_StronglySorted.
Qed.

(** The history shows each report the signed-in user may see exactly
    once: all the reports of the collection to an [ADMIN], and to anybody
    else the reports whose [userLogin] is that user's login and no other.
    Without a store, a Firebase user or a signed-in user the history is
    empty. *)
Theorem reportsHistory_visible (db : bool) (userId : option string)
    (currentUser : option AuthPage.UserData) (collection : list ReportDoc) :
  (∀ uid u, db = true → App.userIdSet userId = Some uid → currentUser = Some u →
     reportsHistory db userId currentUser collection
     ≡ₚ (if String.eqb (AuthPage.role (AuthPage.user u)) "ADMIN" then collection
         else filter (λ doc, userLogin doc = Some (AuthPage.login u)) collection)
     ∧ ∀ doc, doc ∈ reportsHistory db userId currentUser collection
              ↔ doc ∈ collection
                ∧ (AuthPage.role (AuthPage.user u) = "ADMIN"
                   ∨ userLogin doc = Some (AuthPage.login u)))
  ∧ (db = false ∨ App.userIdSet userId = None ∨ currentUser = None →
     reportsHistory db userId currentUser collection = []).
Proof.
  split.
  - intros uid u -> Hu ->. unfold reportsHistory, reportsQuery. rewrite Hu.
    destruct (String.eqb_spec (AuthPage.role (AuthPage.user u)) "ADMIN") as [Hadmin|Hadmin];
      cbn [negb].
    + split; [apply sort_Permutation|]. intros doc.
      rewrite sort_Permutation. tauto.
    + split; [apply sort_Permutation|]. intros doc.
      rewrite sort_Permutation, list_elem_of_filter. tauto.
  - unfold reportsHistory. intros [-> | [-> | ->]]; [done| |].
    + by destruct db.
    + destruct db; [|done]. by destruct (App.userIdSet userId).
Qed.

Lemma insertSorted_same_time (t : Z) (x : ReportDoc) (l : list ReportDoc) :
  filter (λ doc, default 0 (timestamp doc) = t) (insertSorted compareReports x l)
  = filter (λ doc, default 0 (timestamp doc) = t) (x :: l).
Proof.
  induction l as [|y l IH]; cbn [insertSorted]; [done|].
  unfold compareReports at 1.
  destruct (Z.leb_spec (default 0 (timestamp y) - default 0 (timestamp x)) 0)
    as [Hle|Hgt]; [done|].
  rewrite filter_cons, IH, !filter_cons.
  repeat case_decide; try done; lia.
Qed.

Lemma sort_same_time (t : Z) (l : list ReportDoc) :
  filter (λ doc, default 0 (timestamp doc) = t) (sort compareReports l)
  = filter (λ doc, default 0 (timestamp doc) = t) l.
Proof.
  unfold sort. induction l as [|x l IH]; cbn [foldr]; [done|].
  by rewrite insertSorted_same_time, !filter_cons, IH.
Qed.

(** The history is ordered newest first: no report stands before a report
    with a larger timestamp, a missing timestamp counting as 0; and the
    reports that share a timestamp stand in the order in which the query
    returned them. *)
Theorem reportsHistory_newest_first (db : bool) (userId : option string)
    (currentUser : option AuthPage.UserData) (collection : list ReportDoc) :
  StronglySorted notOlder (reportsHistory db userId currentUser collection)
  ∧ ∀ uid u t, db = true → App.userIdSet userId = Some uid → currentUser = Some u →
      filter (λ doc, default 0 (timestamp doc) = t)
             (reportsHistory db userId currentUser collection)
      = filter (λ doc, default 0 (timestamp doc) = t) (reportsQuery u collection).
Proof.
  unfold reportsHistory. split.
  - destruct db; [|constructor].
    destruct (App.userIdSet userId); [|constructor].
    destruct currentUser; [|constructor].
    apply sort_StronglySorted.
  - intros uid u t -> -> ->. apply sort_same_time.
Qed.

Lemma reportsHistory_visible_witness :
  reportsHistory true (Some "uid-1") (Some sampleUserData) sampleReports
  ≡ₚ (if String.eqb (AuthPage.role (AuthPage.user sampleUserData)) "ADMIN"
      then sampleReports
      else filter (λ doc, userLogin doc = Some (AuthPage.login sampleUserData))
             sampleReports)
  ∧ ∀ doc, doc ∈ reportsHistory true (Some "uid-1") (Some sampleUserData) sampleReports
           ↔ doc ∈ sampleReports
             ∧ (AuthPage.role (AuthPage.user sampleUserData) = "ADMIN"
                ∨ userLogin doc = Some (AuthPage.login sampleUserData)).
Proof.
  destruct (reportsHistory_visible true (Some "uid-1") (Some sampleUserData)
              sampleReports) as [H _].
  apply (H "uid-1" sampleUserData); reflexivity.
Defined.

Example reportsHistory_sample :
  map id (reportsHistory true (Some "uid-1") (Some sampleUserData) sampleReports)
  = ["r4"; "r1"; "r3"].
Proof. reflexivity. Qed.

End HistoryProperties.

(** ** Metering over time *)

Lemma userIdSet_intro (uid : string) : uid ≠ "" → userIdSet (Some uid) = Some uid.
Proof. intros Hne. cbn. by destruct (String.eqb_spec uid ""). Qed.

Lemma recordOrInitial_insert (s : Store) (ref : string) (d : Doc) :
  recordOrInitial (<[ref := d]> s) ref = d.
Proof. unfold recordOrInitial. by rewrite lookup_insert_eq. Qed.

Lemma repeatIncrement_closed (__app_id : option string) (roleKey uid : string)
    (n : nat) (st : State) (s : Store) (prior : Z) :
  db st = true → userId st = Some uid → uid ≠ "" →
  roleKey ∉ prototypeKeys →
  countOf (recordOrInitial s (getUsageDocRef __app_id uid) !! roleKey) = Some prior →
  repeatIncrement __app_id roleKey (S n) st s
  = (st, <[getUsageDocRef __app_id uid :=
             <[roleKey := JNum (Nat.iter (S n) (λ c, addNumbers c 1) prior)]>
               (recordOrInitial s (getUsageDocRef __app_id uid))]> s).
Proof.
  intros Hdb Hu Hne Hown.
  assert (Hset : userIdSet (userId st) = Some uid)
    by (rewrite Hu; by apply userIdSet_intro).
  revert s prior. induction n as [|n IH]; intros s prior Hprior.
  - cbn [repeatIncrement].
    destruct (incrementUsage_counted __app_id roleKey uid st s prior
                Hdb Hset Hown Hprior) as (_ & -> & ->).
    reflexivity.
  - remember (S n) as m. cbn [repeatIncrement]. subst m.
    destruct (incrementUsage_counted __app_id roleKey uid st s prior
                Hdb Hset Hown Hprior) as (_ & -> & ->).
    rewrite (IH _ (addNumbers prior 1)).
    + rewrite recordOrInitial_insert, !insert_insert_eq.
      by rewrite (Nat.iter_succ_r (S n) _ prior).
    + rewrite recordOrInitial_insert, lookup_insert_eq.
      apply countOf_JNum, addNumbers_nonneg. eauto using countOf_nonneg.
Qed.

(** Counting from a count that is not negative, the counter follows the
    exact count as long as that is at most 2^53; from there on both are at
    2^53 or above. *)
Lemma iter_addNumbers (n : nat) (prior : Z) :
  0 ≤ prior →
  (Nat.iter n (λ c, addNumbers c 1) prior = prior + Z.of_nat n
   ∧ prior + Z.of_nat n ≤ 2 ^ 53)
  ∨ (2 ^ 53 ≤ Nat.iter n (λ c, addNumbers c 1) prior
     ∧ 2 ^ 53 ≤ prior + Z.of_nat n).
Proof.
  intros Hprior. induction n as [|n IH].
  - unfold Nat.iter. cbn [nat_rect]. lia.
  - rewrite Nat.iter_succ, Nat2Z.inj_succ.
    destruct IH as [[-> Hle] | [Hc Hk]].
    + destruct (Z.eq_dec (prior + Z.of_nat n) (2 ^ 53)) as [Heq|].
      * right. rewrite Heq. split; [apply addNumbers_large|]; lia.
      * left. rewrite addNumbers_exact by lia. lia.
    + right. split; [by apply addNumbers_large|lia].
Qed.

(** [n] committed calls in a row on a counter key add exactly [n] to a
    counter that stays within 2^53: nothing is lost and nothing is counted
    twice. The other fields of the record (the subscription flag among
    them), the other documents and the state of the component are as
    before. *)
Theorem incrementUsage_repeated (__app_id : option string) (roleKey uid : string)
    (n : nat) (st : State) (s : Store) (prior : Z) :
  db st = true → userId st = Some uid → uid ≠ "" →
  roleKey ∉ prototypeKeys →
  countOf (recordOrInitial s (getUsageDocRef __app_id uid) !! roleKey) = Some prior →
  prior + Z.of_nat n ≤ 2 ^ 53 →
  let ref := getUsageDocRef __app_id uid in
  let st' := (repeatIncrement __app_id roleKey n st s).1 in
  let s' := (repeatIncrement __app_id roleKey n st s).2 in
  countOf (recordOrInitial s' ref !! roleKey) = Some (prior + Z.of_nat n)
  ∧ (∀ field, field ≠ roleKey →
       recordOrInitial s' ref !! field = recordOrInitial s ref !! field)
  ∧ (∀ other, other ≠ ref → s' !! other = s !! other)
  ∧ st' = st
  ∧ ((0 < n)%nat → is_Some (s' !! ref)).
Proof.
  intros Hdb Hu Hne Hown Hprior Hrange. cbn zeta.
  pose proof (countOf_nonneg _ _ Hprior) as Hpos.
  destruct n as [|n].
  - cbn [repeatIncrement fst snd]. rewrite Z.add_0_r. repeat split; auto. lia.
  - rewrite (repeatIncrement_closed __app_id roleKey uid n st s prior
               Hdb Hu Hne Hown Hprior).
    cbn [fst snd]. rewrite recordOrInitial_insert.
    split.
    { rewrite lookup_insert_eq.
      destruct (iter_addNumbers (S n) prior Hpos) as [[-> _] | [_ Hk]].
      - apply countOf_JNum. lia.
      - assert (Heq : prior + Z.of_nat (S n) = 2 ^ 53) by lia.
        destruct (iter_addNumbers n prior Hpos) as [[Hn _] | [_ Hk']]; [|lia].
        rewrite Nat.iter_succ, Hn, addNumbers_exact by lia.
        replace (prior + Z.of_nat n + 1) with (prior + Z.of_nat (S n)) by lia.
        apply countOf_JNum. lia. }
    split; [intros field Hfield; by rewrite lookup_insert_ne|].
    split; [intros other Hother; by rewrite lookup_insert_ne|].
    split; [done|]. intros _. rewrite lookup_insert_eq. by eexists.
Qed.

Lemma incrementUsage_repeated_witness :
  let ref := getUsageDocRef None "u1" in
  let st' := (repeatIncrement None "bidderChecks" 4 sampleState ∅).1 in
  let s' := (repeatIncrement None "bidderChecks" 4 sampleState ∅).2 in
  countOf (recordOrInitial s' ref !! "bidderChecks") = Some (0 + Z.of_nat 4)
  ∧ (∀ field, field ≠ "bidderChecks" →
       recordOrInitial s' ref !! field = recordOrInitial ∅ ref !! field)
  ∧ (∀ other, other ≠ ref → s' !! other = (∅ : Store) !! other)
  ∧ st' = sampleState
  ∧ ((0 < 4)%nat → is_Some (s' !! ref)).
Proof.
  apply (incrementUsage_repeated None "bidderChecks" "u1" 4 sampleState ∅ 0);
    first [reflexivity | discriminate | apply counterKey_own; by right].
Defined.

(** At 2^53 the counter stops: a committed call on a counter at the limit
    of exact integers leaves it where it was. *)
Example incrementUsage_stops :
  (repeatIncrement None "bidderChecks" 5 sampleState (sampleStore (2 ^ 53 - 2))).2
    !! getUsageDocRef None "u1"
  = Some (sampleRecord (2 ^ 53)).
Proof. reflexivity. Qed.

(** A call that cannot commit changes no document. Stopped at its guard
    (no store handle, or no user id) it does nothing at all; with its
    transaction aborted it has read and prepared the write, but the store
    is as before and the message of the abort is shown after a fixed
    prefix. *)
Theorem incrementUsage_failure (__app_id : option string) (roleKey : string)
    (outcome : TxOutcome) (st : State) (s : Store) :
  (inc_committed (incrementUsage __app_id roleKey outcome st s) = false
   → inc_store (incrementUsage __app_id roleKey outcome st s) = s
     ∧ usageLimits (inc_state (incrementUsage __app_id roleKey outcome st s))
       = usageLimits st)
  ∧ (db st = false ∨ userIdSet (userId st) = None
     → incrementUsage __app_id roleKey outcome st s
       = {| inc_state := st; inc_store := s; inc_transactions := [];
            inc_committed := false |})
  ∧ (∀ message, db st = true → is_Some (userIdSet (userId st)) →
       outcome = Abort message →
       inc_committed (incrementUsage __app_id roleKey outcome st s) = false
       ∧ errorMessage (inc_state (incrementUsage __app_id roleKey outcome st s))
         = Some ("Failed to update usage count. Details: " +:+ message)
       ∧ length (inc_transactions (incrementUsage __app_id roleKey outcome st s))
         = 1%nat).
Proof.
  unfold incrementUsage, runTransaction. split; [|split].
  - destruct (db st); [|done].
    destruct (userIdSet (userId st)); [|done].
    rewrite incrementUsageTx_run. destruct outcome; cbn; [discriminate|done].
  - intros [-> | Hnone]; [done|]. rewrite Hnone. by destruct (db st).
  - intros message -> [uid ->] ->. by rewrite incrementUsageTx_run.
Qed.

Lemma incrementUsage_failure_witness :
  inc_committed (incrementUsage None "bidderChecks" (Abort "contention")
                   sampleState (sampleStore 2)) = false
  ∧ errorMessage (inc_state (incrementUsage None "bidderChecks" (Abort "contention")
                               sampleState (sampleStore 2)))
    = Some ("Failed to update usage count. Details: " +:+ "contention")
  ∧ length (inc_transactions (incrementUsage None "bidderChecks" (Abort "contention")
                                sampleState (sampleStore 2))) = 1%nat.
Proof.
  destruct (incrementUsage_failure None "bidderChecks" (Abort "contention")
              sampleState (sampleStore 2)) as (_ & _ & H).
  apply H; [reflexivity|by eexists|reflexivity].
Defined.

Lemma truthy_or_else_false (v : option value) :
  truthy (Some (or_else v (JBool false))) = truthy v.
Proof.
  destruct v as [x|]; [|done]. unfold or_else.
  destruct (truthy (Some x)) eqn:Hx; done.
Qed.

Lemma onUsageSnapshot_run (__app_id : option string) (uid : string)
    (st : State) (s : Store) :
  let ref := getUsageDocRef __app_id uid in
  onUsageSnapshot __app_id uid st s
  = (setUsageLimits
       (<["isSubscribed" :=
            or_else (recordOrInitial s ref !! "isSubscribed") (JBool false)]>
          (recordOrInitial s ref)) st,
     <[ref := recordOrInitial s ref]> s).
Proof.
  cbn zeta. unfold onUsageSnapshot, recordOrInitial, get, set.
  destruct (s !! getUsageDocRef __app_id uid) as [data|] eqn:Hdata.
  - change (default initialData (Some data)) with data.
    by rewrite (insert_id s _ _ Hdata).
  - reflexivity.
Qed.

Lemma onUsageSnapshot_gate (StringToNumber : string → option Z)
    (__app_id : option string) (uid : string) (st : State) (s : Store) :
  isTrialOver StringToNumber (usageLimits (onUsageSnapshot __app_id uid st s).1)
  = isBlocked StringToNumber (recordOrInitial s (getUsageDocRef __app_id uid))
      FREE_TRIAL_LIMIT.
Proof.
  rewrite onUsageSnapshot_run. cbn [fst setUsageLimits usageLimits].
  unfold isTrialOver, isBlocked.
  rewrite lookup_insert_ne by done.
  by rewrite lookup_insert_eq, truthy_or_else_false.
Qed.

(** What the usage listener leaves: the store holds a record for the user
    (the all-zero, unsubscribed one if there was none) and the other
    documents are untouched; the component holds that record with
    [isSubscribed] always present; the trial gate on what the component
    holds decides as it would on the stored record; and a second delivery
    of the same snapshot changes nothing. *)
Theorem onUsageSnapshot_syncs (StringToNumber : string → option Z)
    (__app_id : option string) (uid : string) (st : State) (s : Store) :
  let ref := getUsageDocRef __app_id uid in
  let st' := (onUsageSnapshot __app_id uid st s).1 in
  let s' := (onUsageSnapshot __app_id uid st s).2 in
  s' !! ref = Some (recordOrInitial s ref)
  ∧ (∀ other, other ≠ ref → s' !! other = s !! other)
  ∧ (∀ field, field ≠ "isSubscribed" →
       usageLimits st' !! field = recordOrInitial s ref !! field)
  ∧ is_Some (usageLimits st' !! "isSubscribed")
  ∧ isTrialOver StringToNumber (usageLimits st')
    = isBlocked StringToNumber (recordOrInitial s ref) FREE_TRIAL_LIMIT
  ∧ onUsageSnapshot __app_id uid st' s' = (st', s').
Proof.
  cbn zeta. split; [|split; [|split; [|split; [|split]]]].
  - rewrite onUsageSnapshot_run. apply lookup_insert_eq.
  - intros other Hother. rewrite onUsageSnapshot_run. by apply lookup_insert_ne.
  - intros field Hfield. rewrite onUsageSnapshot_run. by apply lookup_insert_ne.
  - rewrite onUsageSnapshot_run. cbn [fst setUsageLimits usageLimits].
    rewrite lookup_insert_eq. by eexists.
  - apply onUsageSnapshot_gate.
  - rewrite (onUsageSnapshot_run __app_id uid st s). cbn [fst snd].
    by rewrite onUsageSnapshot_run, recordOrInitial_insert, insert_insert_eq.
Qed.

(** Metering end to end: after [n] committed audits counted on
    [bidderChecks] and the listener's next snapshot, the trial gate is
    closed exactly when the count, starting from what was stored, has
    reached the limit of 3 and the record carries no subscription. A
    subscribed user is never blocked, whatever the count. *)
Theorem trial_gate_after_increments (StringToNumber : string → option Z)
    (__app_id : option string) (uid : string) (n : nat) (st : State) (s : Store)
    (prior : Z) :
  db st = true → userId st = Some uid → uid ≠ "" →
  countOf (recordOrInitial s (getUsageDocRef __app_id uid) !! "bidderChecks")
    = Some prior →
  let counted := repeatIncrement __app_id "bidderChecks" n st s in
  let synced := onUsageSnapshot __app_id uid counted.1 counted.2 in
  isTrialOver StringToNumber (usageLimits synced.1)
  = (3 <=? prior + Z.of_nat n)
    && negb (truthy (recordOrInitial s (getUsageDocRef __app_id uid) !! "isSubscribed")).
Proof.
  intros Hdb Hu Hne Hprior counted synced. subst synced.
  rewrite onUsageSnapshot_gate. unfold isBlocked, FREE_TRIAL_LIMIT, ge_num.
  set (ref := getUsageDocRef __app_id uid) in *.
  pose proof (countOf_nonneg _ _ Hprior) as Hpos.
  destruct n as [|n].
  - subst counted. cbn [repeatIncrement fst snd]. rewrite Z.add_0_r. f_equal.
    destruct (recordOrInitial s ref !! "bidderChecks") as [[| |m|]|];
      cbn in Hprior; try discriminate.
    + destruct (0 <=? m); [|discriminate]. by injection Hprior as <-.
    + by injection Hprior as <-.
  - subst counted.
    rewrite (repeatIncrement_closed __app_id "bidderChecks" uid n st s prior
               Hdb Hu Hne (counterKey_own _ (or_intror eq_refl)) Hprior).
    cbn [fst snd]. fold ref. rewrite recordOrInitial_insert.
    rewrite lookup_insert_eq, lookup_insert_ne by done. f_equal.
    cbn [to_number].
    destruct (iter_addNumbers (S n) prior Hpos) as [[-> _] | [Hc Hk]]; [done|].
    destruct (Z.leb_spec 3 (Nat.iter (S n) (λ c, addNumbers c 1) prior)),
             (Z.leb_spec 3 (prior + Z.of_nat (S n))); first [done | lia].
Qed.

Lemma trial_gate_after_increments_witness :
  let counted := repeatIncrement None "bidderChecks" 3 sampleState ∅ in
  let synced := onUsageSnapshot None "u1" counted.1 counted.2 in
  isTrialOver (λ _, None) (usageLimits synced.1)
  = (3 <=? 0 + Z.of_nat 3)
    && negb (truthy (recordOrInitial ∅ (getUsageDocRef None "u1") !! "isSubscribed")).
Proof.
  apply (trial_gate_after_increments (λ _, None) None "u1" 3 sampleState ∅ 0);
    first [reflexivity|discriminate].
Defined.

(** ** The server routes, beyond the claims *)

Lemma createPortalSession_cases (stripe : Stripe) (validDocumentId : string → bool)
    (env : Env) (userId : option string) (s : Store) :
  let r := createPortalSession stripe validDocumentId env userId s in
  (r = respond 500 (JsonError "Server missing Stripe Key") s []
   ∧ isSet (STRIPE_SECRET_KEY env) = false)
  ∨ (∃ e, r = respond 500 (JsonErrorOf e) s []
          ∧ usageDocRef validDocumentId env userId = inl e)
  ∨ (∃ key u, STRIPE_SECRET_KEY env = Some key ∧ key ≠ "" ∧ userId = Some u
      ∧ usageDocRef validDocumentId env userId = inr (usageDocPath u)
      ∧ ((r = respond 404 (JsonError "No subscription found for this user.")
                s [Lookup (usageDocPath u)]
          ∧ truthy (s !! usageDocPath u ≫= (λ data, data !! "stripeCustomerId")) = false)
         ∨ ∃ c, s !! usageDocPath u ≫= (λ data, data !! "stripeCustomerId") = Some c
                ∧ truthy (Some c) = true
                ∧ ((∃ url, billingPortal_sessions_create stripe key c
                             "https://smartbid-secure.onrender.com" = inl url
                           ∧ r = respond 200 (JsonUrl url) s
                                   [Lookup (usageDocPath u);
                                    PortalCall c "https://smartbid-secure.onrender.com"])
                   ∨ (∃ message, billingPortal_sessions_create stripe key c
                                   "https://smartbid-secure.onrender.com" = inr message
                                 ∧ r = respond 500 (JsonErrorOf (StripeFailure message)) s
                                         [Lookup (usageDocPath u);
                                          PortalCall c "https://smartbid-secure.onrender.com"])))).
Proof.
  cbn zeta. unfold createPortalSession.
  destruct (isSet (STRIPE_SECRET_KEY env)) eqn:Hkey; cbn [negb]; [|by left].
  apply isSet_Some in Hkey as (key & Hkey & Hne). rewrite Hkey.
  change (default "" (Some key)) with key. right.
  destruct (usageDocRef validDocumentId env userId) as [e|ref] eqn:Href; [left; eauto|].
  right. exists key.
  assert (∃ u, userId = Some u ∧ ref = usageDocPath u) as (u & -> & ->).
  { unfold usageDocRef in Href. destruct (admin_apps_length env =? 0)%nat; [done|].
    destruct userId as [u|]; [|done]. destruct (validDocumentId u); [|done].
    injection Href as <-. eauto. }
  exists u. split; [done|]. split; [done|]. split; [done|]. split; [done|].
  unfold get.
  destruct (truthy (s !! usageDocPath u ≫= _)) eqn:Htruthy; cbn [negb]; [|by left].
  right.
  destruct (s !! usageDocPath u ≫= _) as [c|] eqn:Hc; [|done].
  exists c. split; [done|]. split; [done|].
  change (default JNull (Some c)) with c.
  destruct (billingPortal_sessions_create stripe key c _) as [url|message];
    [left|right]; eauto.
Qed.

(** The portal route always answers, with 200, 404 or 500. The billing
    provider is called at most once, after the lookup, and only with a
    customer id read from the usage document of the user named in the
    request and with the fixed return address; a 200 carries a URL the
    provider returned for that call. *)
Theorem createPortalSession_outcomes (stripe : Stripe)
    (validDocumentId : string → bool) (env : Env) (userId : option string)
    (s : Store) :
  let r := createPortalSession stripe validDocumentId env userId s in
  (∃ code b, response r = Some {| status := code; body := b |}
             ∧ (code = 200 ∨ code = 404 ∨ code = 500)%nat)
  ∧ (∀ c return_url, PortalCall c return_url ∈ effects r →
       return_url = "https://smartbid-secure.onrender.com"
       ∧ ∃ u record, userId = Some u
                     ∧ effects r = [Lookup (usageDocPath u); PortalCall c return_url]
                     ∧ s !! usageDocPath u = Some record
                     ∧ record !! "stripeCustomerId" = Some c
                     ∧ truthy (Some c) = true)
  ∧ (∀ url, response r = Some {| status := 200; body := JsonUrl url |} →
       ∃ key c, STRIPE_SECRET_KEY env = Some key
                ∧ PortalCall c "https://smartbid-secure.onrender.com" ∈ effects r
                ∧ billingPortal_sessions_create stripe key c
                    "https://smartbid-secure.onrender.com" = inl url).
Proof.
  intros r.
  destruct (createPortalSession_cases stripe validDocumentId env userId s)
    as [[Hr _]|[(e & Hr & _)|(key & u & Hkey & Hne & -> & _ & Hcases)]];
    fold r in Hr || fold r in Hcases.
  - rewrite Hr. cbn. split; [eauto 10|]. split; [intros c url Hin; inversion Hin|done].
  - rewrite Hr. cbn. split; [eauto 10|]. split; [intros c url Hin; inversion Hin|done].
  - assert (Hstored : ∀ c, s !! usageDocPath u ≫= (λ data, data !! "stripeCustomerId")
                           = Some c
                           → ∃ record, s !! usageDocPath u = Some record
                                       ∧ record !! "stripeCustomerId" = Some c).
    { intros c Hc. destruct (s !! usageDocPath u) as [record|]; [|done]. eauto. }
    destruct Hcases as [[Hr _]|(c & Hc & Htruthy & [(url & Hurl & Hr)|(message & Hmsg & Hr)])];
      rewrite Hr; cbn.
    + split; [eauto 10|]. split; [|done].
      intros c url Hin. apply list_elem_of_singleton in Hin. done.
    + split; [eauto 10|]. split.
      * intros c' url' Hin. apply elem_of_cons in Hin as [[=]|Hin].
        apply list_elem_of_singleton in Hin. injection Hin as -> ->.
        destruct (Hstored c Hc) as (record & ? & ?).
        split; [done|]. by exists u, record.
      * intros url' [= <-]. exists key, c. split; [done|]. split; [|done].
        apply elem_of_cons. right. by apply list_elem_of_singleton.
    + split; [eauto 10|]. split; [|done].
      intros c' url' Hin. apply elem_of_cons in Hin as [[=]|Hin].
      apply list_elem_of_singleton in Hin. injection Hin as -> ->.
      destruct (Hstored c Hc) as (record & ? & ?).
      split; [done|]. by exists u, record.
Qed.

(** The failures of the portal route, each a 500 that tells its cause:
    with the billing key set, a store client that is not initialised or
    that rejects the user id (a missing id included) fails the request
    before any lookup or call; a provider that throws fails it after the
    one call, with the provider's message. In no case is a URL returned. *)
Theorem createPortalSession_failures (stripe : Stripe)
    (validDocumentId : string → bool) (env : Env) (userId : option string)
    (s : Store) (key : string) :
  STRIPE_SECRET_KEY env = Some key → key ≠ "" →
  let r := createPortalSession stripe validDocumentId env userId s in
  (admin_apps_length env = 0%nat →
     r = respond 500 (JsonErrorOf FirebaseAppMissing) s [])
  ∧ (admin_apps_length env ≠ 0%nat →
     userId = None ∨ (∃ u, userId = Some u ∧ validDocumentId u = false) →
     r = respond 500 (JsonErrorOf (InvalidDocumentId userId)) s [])
  ∧ (∀ u record c message,
       admin_apps_length env ≠ 0%nat → userId = Some u → validDocumentId u = true →
       s !! usageDocPath u = Some record →
       record !! "stripeCustomerId" = Some c → truthy (Some c) = true →
       billingPortal_sessions_create stripe key c
         "https://smartbid-secure.onrender.com" = inr message →
       r = respond 500 (JsonErrorOf (StripeFailure message)) s
             [Lookup (usageDocPath u);
              PortalCall c "https://smartbid-secure.onrender.com"]).
Proof.
  intros Hkey Hne r. subst r. unfold createPortalSession, usageDocRef.
  rewrite Hkey, (isSet_intro _ Hne). cbn [negb].
  change (default "" (Some key)) with key.
  split; [by intros ->|]. split.
  - intros Hadmin Hid. destruct (Nat.eqb_spec (admin_apps_length env) 0); [done|].
    destruct Hid as [->|(u & -> & ->)]; done.
  - intros u record c message Hadmin -> Hvalid Hrecord Hc Htruthy Hthrow.
    destruct (Nat.eqb_spec (admin_apps_length env) 0); [done|].
    rewrite Hvalid. unfold get. rewrite Hrecord. cbn [mbind option_bind].
    rewrite Hc, Htruthy. cbn [negb].
    change (default JNull (Some c)) with c. by rewrite Hthrow.
Qed.

Lemma createPortalSession_failures_witness :
  (admin_apps_length sampleEnvNoFirebase = 0%nat →
     createPortalSession sampleStripe sampleValidId sampleEnvNoFirebase
       (Some "u1") sampleLinkedUsers
     = respond 500 (JsonErrorOf FirebaseAppMissing) sampleLinkedUsers [])
  ∧ createPortalSession sampleStripe sampleValidId sampleEnv (Some "a/b") sampleLinkedUsers
    = respond 500 (JsonErrorOf (InvalidDocumentId (Some "a/b"))) sampleLinkedUsers []
  ∧ createPortalSession sampleStripe sampleValidId sampleEnv (Some "u1") sampleStaleUsers
    = respond 500 (JsonErrorOf (StripeFailure "No such customer")) sampleStaleUsers
        [Lookup (usageDocPath "u1");
         PortalCall (JNum 7) "https://smartbid-secure.onrender.com"].
Proof.
  split; [|split].
  - apply (createPortalSession_failures sampleStripe sampleValidId sampleEnvNoFirebase
             (Some "u1") sampleLinkedUsers "sk_test"); [reflexivity|discriminate].
  - destruct (createPortalSession_failures sampleStripe sampleValidId sampleEnv
                (Some "a/b") sampleLinkedUsers "sk_test" eq_refl ltac:(discriminate))
      as (_ & H & _).
    apply H; [discriminate|]. right. by exists "a/b".
  - destruct (createPortalSession_failures sampleStripe sampleValidId sampleEnv
                (Some "u1") sampleStaleUsers "sk_test" eq_refl ltac:(discriminate))
      as (_ & _ & H).
    apply (H "u1" (<["stripeCustomerId" := JNum 7]> (sampleRecord 3)) (JNum 7)
             "No such customer"); first [reflexivity|discriminate].
Defined.

(** Whatever the request, verified or not, the webhook only ever adds:
    every document that was stored is still stored, with each of its
    fields other than [isSubscribed] and [stripeCustomerId] unchanged; a
    document that changed has [isSubscribed = true], so no request turns a
    subscription off; a request writes at most once; and a document that
    appears holds the subscription data alone. *)
Theorem webhook_only_adds (stripe : Stripe) (validDocumentId : string → bool)
    (env : Env) (rawBody sig : option string) (s : Store) :
  let r := webhook stripe validDocumentId env rawBody sig s in
  (∀ ref before, s !! ref = Some before →
     ∃ after : Doc,
       store r !! ref = Some after
       ∧ (∀ field, field ≠ "isSubscribed" → field ≠ "stripeCustomerId" →
            after !! field = before !! field)
       ∧ (after = before ∨ after !! "isSubscribed" = Some (JBool true)))
  ∧ (∀ ref after, s !! ref = None → store r !! ref = Some after →
       ∃ c, after = subscriptionData c)
  ∧ (length (effects r) ≤ 1)%nat.
Proof.
  intros r. subst r.
  destruct (webhook_store_cases stripe validDocumentId env rawBody sig s)
    as [[-> ->]|(u & c & Hne & -> & ->)].
  - split; [|split; [|cbn; lia]].
    + intros ref before Href. exists before. auto.
    + intros ref after Hnone Hafter. congruence.
  - split; [|split; [|cbn; lia]].
    + intros ref before Href.
      destruct (decide (ref = usageDocPath u)) as [->|Hother].
      * rewrite set_merge_lookup, Href. cbn [default]. eexists. split; [done|].
        split; [|right; by apply lookup_union_Some_l].
        intros field H1 H2. rewrite lookup_union_r; [done|].
        unfold subscriptionData. rewrite !lookup_insert_ne by done. apply lookup_empty.
      * rewrite (set_merge_other _ _ _ _ Hother), Href. exists before. auto.
    + intros ref after Hnone.
      destruct (decide (ref = usageDocPath u)) as [->|Hother].
      * rewrite set_merge_lookup, Hnone. cbn [default]. intros [= <-].
        exists c. by rewrite (right_id_L ∅ (∪)).
      * rewrite (set_merge_other _ _ _ _ Hother). congruence.
Qed.

(** With the billing key set, a verified event that is not a completed
    checkout, or a completed checkout without a client reference (null or
    empty), or any verified event while the store client is not
    initialised, is acknowledged with the empty 200 and changes nothing. *)
Theorem webhook_verified_noop (stripe : Stripe) (validDocumentId : string → bool)
    (env : Env) (rawBody sig : option string) (s : Store) (event : Event) :
  isSet (STRIPE_SECRET_KEY env) = true →
  constructEvent stripe rawBody sig (STRIPE_WEBHOOK_SECRET env) = inl event →
  type event ≠ "checkout.session.completed"
  ∨ isSet (client_reference_id (data_object event)) = false
  ∨ admin_apps_length env = 0%nat →
  webhook stripe validDocumentId env rawBody sig s = respond 200 Empty s [].
Proof.
  intros Hkey Hev Hcases. rewrite (webhook_verified _ _ _ _ _ _ _ Hkey Hev).
  destruct (String.eqb_spec (type event) "checkout.session.completed") as [Hty|Hty];
    [|done].
  unfold checkoutCompleted.
  destruct Hcases as [Hne|[Hset|Hadmin]]; [done| |].
  - by rewrite Hset.
  - rewrite Hadmin. cbn. by rewrite andb_false_r.
Qed.

Lemma webhook_verified_noop_witness :
  webhook sampleStripe sampleValidId sampleEnvNoFirebase
    (Some "checkout") (Some "whsec_checkout") sampleUsers
  = respond 200 Empty sampleUsers [].
Proof.
  apply (webhook_verified_noop sampleStripe sampleValidId sampleEnvNoFirebase
           (Some "checkout") (Some "whsec_checkout") sampleUsers
           (sampleEvent "checkout")); [reflexivity|reflexivity|].
  right. right. reflexivity.
Defined.



(** ** The compliance percentage, beyond the claim *)





